(** * Solar position (angle.py): elevation and azimuth of the Sun

    A shallow embedding of [solar_angle] (src/angle.py) and the properties
    of it that the specification states.

    Numbers.  The source computes with 64-bit floats (Python floats and
    numpy [float64] scalars).  Here a float is an exact real number or the
    not-a-number [NaN]; rounding is not modelled.  numpy does not raise on a
    domain error: [np.arccos] and [np.arcsin] outside [-1,1] and a division
    by zero give a non-number (with a warning), which every later operation
    keeps and every comparison answers with False.  The only quotients with
    a computed divisor feed [np.arccos] (which sends an infinity to nan) or
    are dead, so one absorbing non-number stands for nan and the
    infinities.  [np.sin], [np.cos] and [np.tan] are total on floats and are
    the total functions of the real numbers here.

    The arguments [year], [month], [day], [hour], [minute] are integers (the
    docstring); [tz], [lat], [lon] are finite numbers. *)

From Stdlib Require Import Reals Zfloor ZArith Bool Lra Lia Psatz.

Open Scope R_scope.

(** ** numpy scalars *)

Inductive num : Type :=
| Fin (x : R)
| NaN.

Coercion Fin : R >-> num.

Definition lift1 (f : R -> R) (a : num) : num :=
  match a with
  | Fin x => Fin (f x)
  | NaN => NaN
  end.

Definition lift2 (f : R -> R -> R) (a b : num) : num :=
  match a, b with
  | Fin x, Fin y => Fin (f x y)
  | _, _ => NaN
  end.

Definition deg2rad_R (x : R) : R := x * (PI / 180).
Definition rad2deg_R (x : R) : R := x * (180 / PI).

Definition in_unit (x : R) : Prop := -1 <= x <= 1.

Definition in_unit_dec (x : R) : {in_unit x} + {~ in_unit x}.
Proof.
  unfold in_unit.
  destruct (Rle_dec (-1) x); [destruct (Rle_dec x 1)|]; (left; lra) || (right; lra).
Defined.

(** The angle of the point (x, y), in (-pi, pi]. *)
Definition arctan2_R (y x : R) : R :=
  if Rlt_dec 0 x then atan (y / x)
  else if Rlt_dec x 0 then
    (if Rle_dec 0 y then atan (y / x) + PI else atan (y / x) - PI)
  else if Rlt_dec 0 y then PI / 2
  else if Rlt_dec y 0 then - (PI / 2)
  else 0.

(** The remainder of [a] by [m > 0], with the sign of [m]. *)
Definition mod_R (a m : R) : R := a - IZR (Zfloor (a / m)) * m.

(** The operators of Python on floats and the functions of numpy that the
    source calls. *)
Module Np.

Definition add : num -> num -> num := lift2 Rplus.
Definition sub : num -> num -> num := lift2 Rminus.
Definition mul : num -> num -> num := lift2 Rmult.

(** [a / b]: a zero divisor gives a non-number. *)
Definition div (a b : num) : num :=
  match a, b with
  | Fin x, Fin y => if Req_dec_T y 0 then NaN else Fin (x / y)
  | _, _ => NaN
  end.

(** [a ** n] for a literal exponent [n]. *)
Definition pow (a : num) (n : nat) : num := lift1 (fun x => x ^ n) a.

(** [a > b]; False when either side is a non-number. *)
Definition gt (a b : num) : bool :=
  match a, b with
  | Fin x, Fin y => if Rgt_dec x y then true else false
  | _, _ => false
  end.

(** [a < b], False on a non-number as well. *)
Definition lt (a b : num) : bool :=
  match a, b with
  | Fin x, Fin y => if Rlt_dec x y then true else false
  | _, _ => false
  end.

Definition deg2rad : num -> num := lift1 deg2rad_R.
Definition rad2deg : num -> num := lift1 rad2deg_R.

Definition sin : num -> num := lift1 Rtrigo_def.sin.
Definition cos : num -> num := lift1 Rtrigo_def.cos.
Definition tan : num -> num := lift1 Rtrigo1.tan.

(** [np.arccos], [np.arcsin]: nan outside [-1,1]. *)
Definition arccos (a : num) : num :=
  match a with
  | Fin x => if in_unit_dec x then Fin (acos x) else NaN
  | NaN => NaN
  end.

Definition arcsin (a : num) : num :=
  match a with
  | Fin x => if in_unit_dec x then Fin (asin x) else NaN
  | NaN => NaN
  end.

(** [np.arctan2 y x]. *)
Definition arctan2 : num -> num -> num := lift2 arctan2_R.

(** [np.mod a m] for a literal [m > 0]. *)
Definition modulo (a : num) (m : R) : num := lift1 (fun x => mod_R x m) a.

End Np.

Declare Scope np_scope.
Delimit Scope np_scope with np.
Bind Scope np_scope with num.
Infix "+" := Np.add : np_scope.
Infix "-" := Np.sub : np_scope.
Infix "*" := Np.mul : np_scope.
Infix "/" := Np.div : np_scope.
Infix "**" := Np.pow (at level 30, right associativity) : np_scope.
Infix ">?" := Np.gt (at level 70, no associativity) : np_scope.
Infix "<?" := Np.lt (at level 70, no associativity) : np_scope.

(** ** The calendar of Python's datetime

    [datetime.datetime(year, month, day)] and the subtraction of two dates
    belong to Python's standard library, not to the repository: the
    proleptic Gregorian calendar, years 1 to 9999, [ValueError] for a field
    out of range. *)

Module Datetime.

Definition MINYEAR : Z := 1.
Definition MAXYEAR : Z := 9999.

Definition is_leap (year : Z) : bool :=
  ((year mod 4 =? 0) && (negb (year mod 100 =? 0) || (year mod 400 =? 0)))%Z.

Definition days_in_month (year month : Z) : Z :=
  match month with
  | 1 => 31 | 2 => if is_leap year then 29 else 28 | 3 => 31 | 4 => 30
  | 5 => 31 | 6 => 30 | 7 => 31 | 8 => 31 | 9 => 30 | 10 => 31
  | 11 => 30 | 12 => 31 | _ => 0
  end%Z.

Definition days_before_year (year : Z) : Z :=
  (let y := year - 1 in y * 365 + y / 4 - y / 100 + y / 400)%Z.

Definition days_before_month (year month : Z) : Z :=
  (match month with
   | 1 => 0 | 2 => 31 | 3 => 59 | 4 => 90 | 5 => 120 | 6 => 151
   | 7 => 181 | 8 => 212 | 9 => 243 | 10 => 273 | 11 => 304 | 12 => 334
   | _ => 0
   end + (if (2 <? month) && is_leap year then 1 else 0))%Z.

(** The check of the constructor. *)
Definition check_date_fields (year month day : Z) : bool :=
  ((MINYEAR <=? year) && (year <=? MAXYEAR) &&
   (1 <=? month) && (month <=? 12) &&
   (1 <=? day) && (day <=? days_in_month year month))%Z.

(** The ordinal of a date: 1 for 0001-01-01. *)
Definition ymd2ord (year month day : Z) : Z :=
  (days_before_year year + days_before_month year month + day)%Z.

(** [(datetime(year, month, day) - datetime(1899, 12, 31)).days], or the
    [ValueError] of the constructor. *)
Definition days_since_reference (year month day : Z) : option Z :=
  if check_date_fields year month day
  then Some (ymd2ord year month day - ymd2ord 1899 12 31)%Z
  else None.

End Datetime.

(** ** The formulas of [solar_angle]

    One definition for each assignment of the source, under the name of the
    variable it assigns, as a function of the variables its right-hand side
    reads.  The source assigns [SEC] twice: the equation of centre keeps the
    name, the corrected elevation is [SEC']. *)

Open Scope np_scope.

Definition julian_day (days hour minute : Z) (tz : num) : num :=
  IZR days + 2415018.5 + IZR (hour * 60 + minute) / IZR (24 * 60) - tz / 24 + 1.

Definition julian_century (julian_day : num) : num :=
  (julian_day - 2451545) / 36525.

Definition GMLS (julian_century : num) : num :=
  Np.modulo (280.46646 + julian_century * (36000.76983 + julian_century * 0.0003032)) 360.

Definition GMAS (julian_century : num) : num :=
  357.52911 + julian_century * (35999.05029 - 0.0001537 * julian_century).

Definition EEO (julian_century : num) : num :=
  0.016708634 - julian_century * (0.000042037 + 0.0000001267 * julian_century).

Definition SEC (julian_century GMAS : num) : num :=
  Np.sin (Np.deg2rad GMAS) * (1.914602 - julian_century * (0.004817 + 0.000014 * julian_century))
  + Np.sin (Np.deg2rad (2 * GMAS)) * (0.019993 - 0.000101 * julian_century)
  + Np.sin (Np.deg2rad (3 * GMAS)) * 0.000289.

Definition STL (GMLS SEC : num) : num := GMLS + SEC.

Definition STA (GMAS SEC : num) : num := GMAS + SEC.

Definition SRV (EEO STA : num) : num :=
  1.000001018 * (1 - EEO ** 2) / (1 + EEO * Np.cos (Np.deg2rad STA)).

Definition SAL (julian_century STL : num) : num :=
  STL - 0.00569 - 0.00478 * Np.sin (Np.deg2rad (125.04 - 1934.136 * julian_century)).

Definition MOE (julian_century : num) : num :=
  23 + (26 + ((21.448 - julian_century * (46.815 + julian_century * (0.00059 - julian_century * 0.001813)))) / 60) / 60.

Definition OC (julian_century MOE : num) : num :=
  MOE + 0.00256 * Np.cos (Np.deg2rad (125.04 - 1934.136 * julian_century)).

Definition SRA (OC SAL : num) : num :=
  Np.rad2deg
    (Np.arctan2 (Np.cos (Np.deg2rad OC) * Np.sin (Np.deg2rad SAL)) (Np.cos (Np.deg2rad SAL))).

Definition SD (OC SAL : num) : num :=
  Np.rad2deg (Np.arcsin (Np.sin (Np.deg2rad OC) * Np.sin (Np.deg2rad SAL))).

Definition var_y (OC : num) : num := Np.tan (Np.deg2rad (OC / 2)) ** 2.

Definition ET (GMLS GMAS EEO var_y : num) : num :=
  4 * Np.rad2deg
        (var_y * Np.sin (2 * Np.deg2rad GMLS) - 2 * EEO * Np.sin (Np.deg2rad GMAS)
         + 4 * EEO * var_y * Np.sin (Np.deg2rad GMAS) * Np.cos (2 * Np.deg2rad GMLS)
         - 0.5 * var_y ** 2 * Np.sin (4 * Np.deg2rad GMLS)
         - 1.25 * EEO ** 2 * Np.sin (2 * Np.deg2rad GMAS)).

Definition HAS (lat SD : num) : num :=
  Np.rad2deg
    (Np.arccos (Np.cos (Np.deg2rad 90.833) / (Np.cos (Np.deg2rad lat) * Np.cos (Np.deg2rad SD))
             - Np.tan (Np.deg2rad lat) * Np.tan (Np.deg2rad SD))).

Definition SN (tz lon ET : num) : num := (720 - 4 * lon - ET + tz * 60) / 1440.

Definition SrT (SN HAS : num) : num := SN - HAS * 4 / 1440.

Definition SsT (SN HAS : num) : num := SN + HAS * 4 / 1440.

Definition SlD (HAS : num) : num := 8 * HAS.

Definition TST (hour minute : Z) (tz lon ET : num) : num :=
  Np.modulo (IZR (hour * 60 + minute) / IZR (24 * 60) * 1440 + ET + 4 * lon - 60 * tz) 1440.

Definition HA (TST : num) : num :=
  if TST / 4 <? 0 then TST / 4 + 180 else TST / 4 - 180.

Definition SZA (lat SD HA : num) : num :=
  Np.rad2deg
    (Np.arccos (Np.sin (Np.deg2rad lat) * Np.sin (Np.deg2rad SD)
             + Np.cos (Np.deg2rad lat) * Np.cos (Np.deg2rad SD) * Np.cos (Np.deg2rad HA))).

Definition SEA (SZA : num) : num := 90 - SZA.

Definition AAR (SEA : num) : num :=
  let radSEA := Np.deg2rad SEA in
  let AAR : num :=
    if SEA >? 85 then Fin 0
    else if SEA >? 5 then
      (1 / Np.tan radSEA) - (0.07 / Np.tan radSEA ** 3) + (0.000086 / Np.tan radSEA ** 5)
    else if SEA >? -0.575 then
      1735 + SEA * (-518.2 + SEA * (103.4 + SEA * (-12.79 + SEA * 0.711)))
    else -20.772 / Np.tan (Np.deg2rad SEA) in
  AAR / 3600.

Definition SEC' (SEA AAR : num) : num := SEA + AAR.

Definition SAA (lat SD HA SZA : num) : num :=
  if HA >? 0 then
    let temp :=
      Np.rad2deg
        (Np.arccos (((Np.sin (Np.deg2rad lat) * Np.cos (Np.deg2rad SZA)) - Np.sin (Np.deg2rad SD))
                 / (Np.cos (Np.deg2rad lat) * Np.sin (Np.deg2rad SZA))))
      + 180 in
    Np.modulo temp 360
  else
    let temp :=
      540 - Np.rad2deg
        (Np.arccos (((Np.sin (Np.deg2rad lat) * Np.cos (Np.deg2rad SZA)) - Np.sin (Np.deg2rad SD))
                 / (Np.cos (Np.deg2rad lat) * Np.sin (Np.deg2rad SZA)))) in
    Np.modulo temp 360.

(** ** [solar_angle] *)

(** The outcome of a call: the returned value or the [ValueError] of
    [datetime.datetime]. *)
Inductive result (A : Type) : Type :=
| Ok (a : A)
| ValueError.
Arguments Ok {A} a.
Arguments ValueError {A}.

(** The local variables of the body when it returns. *)
Record locals : Type := Locals {
  v_julian_day : num; v_julian_century : num;
  v_GMLS : num; v_GMAS : num; v_EEO : num; v_SEC : num; v_STL : num;
  v_STA : num; v_SRV : num; v_SAL : num; v_MOE : num; v_OC : num;
  v_SRA : num; v_SD : num; v_var_y : num; v_ET : num;
  v_HAS : num; v_SN : num; v_SrT : num; v_SsT : num; v_SlD : num;
  v_TST : num; v_HA : num; v_SZA : num; v_SEA : num; v_AAR : num;
  v_SEC' : num; v_SAA : num
}.

(** Lines 50 to 121: the body after the two dates are built, [days] being
    [(date - reference).days]. *)
Definition body (days hour minute : Z) (tz lat lon : R) : locals :=
  let julian_day := julian_day days hour minute tz in
  let julian_century := julian_century julian_day in
  let GMLS := GMLS julian_century in
  let GMAS := GMAS julian_century in
  let EEO := EEO julian_century in
  let SEC := SEC julian_century GMAS in
  let STL := STL GMLS SEC in
  let STA := STA GMAS SEC in
  let SRV := SRV EEO STA in
  let SAL := SAL julian_century STL in
  let MOE := MOE julian_century in
  let OC := OC julian_century MOE in
  let SRA := SRA OC SAL in
  let SD := SD OC SAL in
  let var_y := var_y OC in
  let ET := ET GMLS GMAS EEO var_y in
  let HAS := HAS lat SD in
  let SN := SN tz lon ET in
  let SrT := SrT SN HAS in
  let SsT := SsT SN HAS in
  let SlD := SlD HAS in
  let TST := TST hour minute tz lon ET in
  let HA := HA TST in
  let SZA := SZA lat SD HA in
  let SEA := SEA SZA in
  let AAR := AAR SEA in
  let SEC' := SEC' SEA AAR in
  let SAA := SAA lat SD HA SZA in
  Locals julian_day julian_century GMLS GMAS EEO SEC STL STA SRV SAL MOE OC
         SRA SD var_y ET HAS SN SrT SsT SlD TST HA SZA SEA AAR SEC' SAA.

Definition solar_angle (year month day hour minute : Z) (tz lat lon : R)
  : result (num * num) :=
  match Datetime.days_since_reference year month day with
  | None => ValueError
  | Some days =>
      let l := body days hour minute tz lat lon in
      Ok (v_SEC' l, v_SAA l)
  end.

(** [solar_angle] with the assignments of [HAS], [SN], [SrT], [SsT] and
    [SlD] (lines 76 to 83) deleted. *)
Definition solar_angle_without_sun_times
  (year month day hour minute : Z) (tz lat lon : R) : result (num * num) :=
  match Datetime.days_since_reference year month day with
  | None => ValueError
  | Some days =>
      let julian_day := julian_day days hour minute tz in
      let julian_century := julian_century julian_day in
      let GMLS := GMLS julian_century in
      let GMAS := GMAS julian_century in
      let EEO := EEO julian_century in
      let SEC := SEC julian_century GMAS in
      let STL := STL GMLS SEC in
      let STA := STA GMAS SEC in
      let SRV := SRV EEO STA in
      let SAL := SAL julian_century STL in
      let MOE := MOE julian_century in
      let OC := OC julian_century MOE in
      let SRA := SRA OC SAL in
      let SD := SD OC SAL in
      let var_y := var_y OC in
      let ET := ET GMLS GMAS EEO var_y in
      let TST := TST hour minute tz lon ET in
      let HA := HA TST in
      let SZA := SZA lat SD HA in
      let SEA := SEA SZA in
      let AAR := AAR SEA in
      let SEC' := SEC' SEA AAR in
      let SAA := SAA lat SD HA SZA in
      Ok (SEC', SAA)
  end.

Close Scope np_scope.

(** * Properties *)

(** ** Evaluating the numpy operations on numbers *)

Lemma div_Fin (x y : R) : y <> 0 -> (Fin x / Fin y)%np = Fin (x / y).
Proof.
  intros Hy. unfold Np.div.
  destruct (Req_dec_T y 0) as [E|_]; [contradiction | reflexivity].
Qed.

Lemma div_zero (a : num) : (a / Fin 0)%np = NaN.
Proof.
  destruct a as [x|]; [|reflexivity].
  unfold Np.div. destruct (Req_dec_T 0 0) as [_|N]; [reflexivity | now elim N].
Qed.

Lemma div_Fin_inv (a b : num) (q : R) :
  (a / b)%np = Fin q -> exists x y, a = Fin x /\ b = Fin y /\ y <> 0 /\ q = x / y.
Proof.
  destruct a as [x|], b as [y|]; try discriminate.
  unfold Np.div. destruct (Req_dec_T y 0) as [E|N]; [discriminate|].
  intros [= <-]. now exists x, y.
Qed.

Lemma arccos_Fin (x : R) : in_unit x -> Np.arccos (Fin x) = Fin (acos x).
Proof.
  intros Hx. unfold Np.arccos. destruct (in_unit_dec x); [reflexivity | contradiction].
Qed.

Lemma arcsin_Fin (x : R) : in_unit x -> Np.arcsin (Fin x) = Fin (asin x).
Proof.
  intros Hx. unfold Np.arcsin. destruct (in_unit_dec x); [reflexivity | contradiction].
Qed.

Lemma arccos_Fin_inv (a : num) (r : R) :
  Np.arccos a = Fin r -> exists x, a = Fin x /\ in_unit x /\ r = acos x.
Proof.
  destruct a as [x|]; [|discriminate].
  unfold Np.arccos. destruct (in_unit_dec x); [|discriminate].
  intros [= <-]. now exists x.
Qed.

Lemma gt_true (x y : R) : x > y -> (Fin x >? Fin y)%np = true.
Proof. intros H. unfold Np.gt. destruct (Rgt_dec x y); [reflexivity | contradiction]. Qed.

Lemma gt_false (x y : R) : x <= y -> (Fin x >? Fin y)%np = false.
Proof. intros H. unfold Np.gt. destruct (Rgt_dec x y); [lra | reflexivity]. Qed.

Lemma lt_true (x y : R) : x < y -> (Fin x <? Fin y)%np = true.
Proof. intros H. unfold Np.lt. destruct (Rlt_dec x y); [reflexivity | contradiction]. Qed.


Lemma IZR_24_60 : IZR (24 * 60) <> 0.
Proof. apply not_0_IZR. lia. Qed.

(** Evaluation of the total operations, and of the quotients by a literal. *)
Ltac np_step :=
  cbn [Np.add Np.sub Np.mul Np.pow Np.sin Np.cos Np.tan Np.modulo
       Np.deg2rad Np.rad2deg lift1 lift2].

Ltac np_eval :=
  np_step;
  repeat (rewrite div_Fin by (first [exact IZR_24_60 | lra]); np_step).

(** The remainder of [np.mod] by a positive literal. *)
Lemma mod_R_range (a m : R) : 0 < m -> 0 <= mod_R a m < m.
Proof.
  intros Hm. unfold mod_R.
  destruct (Zfloor_bound (a / m)) as [Hlo Hhi].
  assert (Ha : a = a / m * m) by (field; lra).
  split.
  - apply (Rmult_le_compat_r m) in Hlo; lra.
  - apply (Rmult_lt_compat_r m) in Hhi; lra.
Qed.

Lemma mod_R_shift (a m : R) : m <> 0 -> mod_R (a + m) m = mod_R a m.
Proof.
  intros Hm. unfold mod_R.
  replace ((a + m) / m) with (a / m + IZR 1) by (field; assumption).
  rewrite Zfloor_addz, plus_IZR. ring.
Qed.

Lemma mod_R_small (a m : R) : 0 <= a < m -> mod_R a m = a.
Proof.
  intros [Hlo Hhi]. unfold mod_R.
  assert (Hm : 0 < m) by lra.
  rewrite (Zfloor_eq 0).
  - simpl. ring.
  - simpl. split.
    + apply Rmult_le_pos; [assumption | left; now apply Rinv_0_lt_compat].
    + apply (Rmult_lt_reg_r m); [assumption|].
      replace (a / m * m) with a by (field; lra). lra.
Qed.

(** ** True solar time and hour angle (lines 84 to 89) *)

(** Every variable up to the equation of time is a number: the formulas
    only add, multiply, divide by literals and take sines, cosines and
    tangents. *)
Lemma ET_number days hour minute tz lat lon :
  exists et, v_ET (body days hour minute tz lat lon) = Fin et.
Proof.
  cbn [body v_ET].
  unfold ET, var_y, OC, MOE, EEO, GMAS, GMLS, julian_century, julian_day.
  np_eval. eexists. reflexivity.
Qed.

Lemma TST_eval hour minute (tz lon et : R) :
  TST hour minute tz lon et =
  Fin (mod_R (IZR (hour * 60 + minute) / IZR (24 * 60) * 1440 + et + 4 * lon - 60 * tz) 1440).
Proof. unfold TST. np_eval. reflexivity. Qed.

Lemma TST_number days hour minute tz lat lon :
  exists t, v_TST (body days hour minute tz lat lon) = Fin t /\ 0 <= t < 1440.
Proof.
  destruct (ET_number days hour minute tz lat lon) as [et Het].
  cbn [body v_ET] in Het. cbn [body v_TST].
  rewrite Het, TST_eval.
  eexists. split; [reflexivity|]. apply mod_R_range. lra.
Qed.

Lemma HA_eval (t : R) :
  HA t = Fin (if Rlt_dec (t / 4) 0 then t / 4 + 180 else t / 4 - 180).
Proof.
  unfold HA. np_eval. unfold Np.lt.
  destruct (Rlt_dec (t / 4) 0); reflexivity.
Qed.

Lemma HA_of_nonneg (t : R) : 0 <= t -> HA t = Fin (t / 4 - 180).
Proof.
  intros Ht. rewrite HA_eval.
  destruct (Rlt_dec (t / 4) 0); [lra | reflexivity].
Qed.



(** The real number a variable holds (0 for a non-number). *)
Definition value (a : num) : R :=
  match a with
  | Fin x => x
  | NaN => 0
  end.



(** ** The date (line 48) *)

Lemma solar_angle_of_days year month day hour minute tz lat lon days :
  Datetime.days_since_reference year month day = Some days ->
  solar_angle year month day hour minute tz lat lon =
  Ok (v_SEC' (body days hour minute tz lat lon),
      v_SAA (body days hour minute tz lat lon)).
Proof. intros H. unfold solar_angle. now rewrite H. Qed.


(** C7. When year, month and day are not a date of the calendar, the call
    ends with the error of the date constructor whatever the other
    arguments are: nothing else of the body takes part in the outcome. *)
Theorem invalid_date_fails year month day :
  Datetime.check_date_fields year month day = false ->
  forall hour minute tz lat lon,
    solar_angle year month day hour minute tz lat lon = ValueError.
Proof.
  intros H hour minute tz lat lon.
  unfold solar_angle, Datetime.days_since_reference. now rewrite H.
Qed.

Lemma invalid_date_fails_witness :
  (forall hour minute tz lat lon,
      solar_angle 2021 13 1 hour minute tz lat lon = ValueError) /\
  (forall hour minute tz lat lon,
      solar_angle 2021 2 30 hour minute tz lat lon = ValueError).
Proof.
  split.
  - apply (invalid_date_fails 2021 13 1). reflexivity.
  - apply (invalid_date_fails 2021 2 30). reflexivity.
Defined.

(** ** Hours beyond the clock (lines 50 and 84) *)





(** ** The sunrise and sunset block (lines 76 to 83) *)

(** C10. The returned pair does not read [HAS], [SN], [SrT], [SsT] or
    [SlD]: the function without these five assignments returns the same
    outcome for every input, so a non-number that arises there stays
    there. *)
Theorem sun_times_block_is_dead year month day hour minute tz lat lon :
  solar_angle year month day hour minute tz lat lon =
  solar_angle_without_sun_times year month day hour minute tz lat lon.
Proof.
  unfold solar_angle, solar_angle_without_sun_times.
  destruct (Datetime.days_since_reference year month day) as [days|]; reflexivity.
Qed.

(** ** Declination, zenith angle and raw elevation (lines 68, 91 to 95) *)

Lemma sin2_cos2_1 (x : R) : sin x * sin x + cos x * cos x = 1.
Proof. pose proof (sin2_cos2 x) as H. unfold Rsqr in H. exact H. Qed.

Lemma sin_sin_in_unit (x y : R) : in_unit (sin x * sin y).
Proof.
  pose proof (SIN_bound x). pose proof (SIN_bound y).
  unfold in_unit. split; nra.
Qed.

Lemma square_nonneg (x : R) : 0 <= x * x.
Proof. exact (Rle_0_sqr x). Qed.

(** The cosine rule of the zenith angle, as an identity of polynomials. *)
Lemma cosine_rule_identity (a b s c k : R) :
  (a * a + b * b) * (s * s + c * c) - (a * s + b * c * k) * (a * s + b * c * k) =
  (a * c * k - b * s) * (a * c * k - b * s) + c * c * (a * a + b * b) * (1 - k * k).
Proof. ring. Qed.

Lemma cosine_rule_in_unit (p d h : R) :
  in_unit (sin p * sin d + cos p * cos d * cos h).
Proof.
  pose proof (cosine_rule_identity (sin p) (cos p) (sin d) (cos d) (cos h)) as Hid.
  rewrite (sin2_cos2_1 p), (sin2_cos2_1 d) in Hid.
  pose proof (COS_bound h) as Hk.
  assert (Hk2 : 0 <= 1 - cos h * cos h) by nra.
  assert (Hc : 0 <= cos d * cos d) by apply square_nonneg.
  assert (Hsq : 0 <= (sin p * cos d * cos h - cos p * sin d) *
                     (sin p * cos d * cos h - cos p * sin d)) by apply square_nonneg.
  assert (Hprod : 0 <= cos d * cos d * 1 * (1 - cos h * cos h)).
  { apply Rmult_le_pos; [lra | assumption]. }
  unfold in_unit. split; nra.
Qed.

Lemma rad2deg_deg2rad (x : R) : deg2rad_R (rad2deg_R x) = x.
Proof. unfold deg2rad_R, rad2deg_R. pose proof PI_RGT_0. field. lra. Qed.

Lemma SD_eval (oc sal : R) :
  SD oc sal = Fin (rad2deg_R (asin (sin (deg2rad_R oc) * sin (deg2rad_R sal)))).
Proof.
  unfold SD. np_eval. rewrite arcsin_Fin by apply sin_sin_in_unit. reflexivity.
Qed.

Lemma SZA_eval (lat sd ha : R) :
  SZA lat sd ha =
  Fin (rad2deg_R (acos (sin (deg2rad_R lat) * sin (deg2rad_R sd)
                        + cos (deg2rad_R lat) * cos (deg2rad_R sd) * cos (deg2rad_R ha)))).
Proof.
  unfold SZA. np_eval. rewrite arccos_Fin by apply cosine_rule_in_unit. reflexivity.
Qed.

Lemma rad2deg_R_bounds (x lo hi : R) :
  lo * (PI / 180) <= x <= hi * (PI / 180) -> lo <= rad2deg_R x <= hi.
Proof.
  intros [Hlo Hhi]. unfold rad2deg_R. pose proof PI_RGT_0 as Hpi.
  assert (Hk : 0 < 180 / PI) by (apply Rdiv_lt_0_compat; lra).
  replace lo with (lo * (PI / 180) * (180 / PI)) by (field; lra).
  replace hi with (hi * (PI / 180) * (180 / PI)) by (field; lra).
  split; apply Rmult_le_compat_r; lra.
Qed.

Lemma OC_SAL_number days hour minute tz lat lon :
  let l := body days hour minute tz lat lon in
  exists oc sal, v_OC l = Fin oc /\ v_SAL l = Fin sal.
Proof.
  cbn [body v_OC v_SAL].
  unfold OC, MOE, SAL, STL, SEC, GMAS, GMLS, julian_century, julian_day.
  np_eval. eexists. eexists. split; reflexivity.
Qed.

Lemma SD_number days hour minute tz lat lon :
  exists sd, v_SD (body days hour minute tz lat lon) = Fin sd /\ -90 <= sd <= 90.
Proof.
  destruct (OC_SAL_number days hour minute tz lat lon) as (oc & sal & Hoc & Hsal).
  cbn [body v_OC v_SAL] in Hoc, Hsal. cbn [body v_SD].
  rewrite Hoc, Hsal, SD_eval.
  eexists. split; [reflexivity|].
  apply rad2deg_R_bounds.
  pose proof (asin_bound (sin (deg2rad_R oc) * sin (deg2rad_R sal))). lra.
Qed.

Lemma HA_number days hour minute tz lat lon :
  exists t, v_TST (body days hour minute tz lat lon) = Fin t /\ 0 <= t < 1440 /\
            v_HA (body days hour minute tz lat lon) = Fin (t / 4 - 180).
Proof.
  destruct (TST_number days hour minute tz lat lon) as (t & Ht & Hrange).
  exists t. repeat split; try assumption; try lra.
  change (v_HA (body days hour minute tz lat lon))
    with (HA (v_TST (body days hour minute tz lat lon))).
  rewrite Ht. apply HA_of_nonneg. lra.
Qed.

(** The raw elevation is always a number of [-90, 90]: in exact arithmetic
    the argument of the arccosine of the zenith angle stays in [-1, 1]. *)
Lemma SEA_number days hour minute tz lat lon :
  let l := body days hour minute tz lat lon in
  exists z e, v_SZA l = Fin z /\ 0 <= z <= 180 /\
              v_SEA l = Fin e /\ e = 90 - z /\ -90 <= e <= 90.
Proof.
  intros l.
  destruct (SD_number days hour minute tz lat lon) as (sd & Hsd & _).
  destruct (HA_number days hour minute tz lat lon) as (t & _ & _ & Hha).
  fold l in Hsd, Hha.
  assert (Hz : v_SZA l = SZA lat (v_SD l) (v_HA l)) by reflexivity.
  assert (He : v_SEA l = SEA (v_SZA l)) by reflexivity.
  rewrite Hsd, Hha, SZA_eval in Hz.
  set (x := sin (deg2rad_R lat) * sin (deg2rad_R sd)
            + cos (deg2rad_R lat) * cos (deg2rad_R sd) * cos (deg2rad_R (t / 4 - 180))) in Hz.
  assert (Hzr : 0 <= rad2deg_R (acos x) <= 180).
  { apply rad2deg_R_bounds. pose proof (acos_bound x). pose proof PI_RGT_0.
    replace (180 * (PI / 180)) with PI by field. lra. }
  exists (rad2deg_R (acos x)), (90 - rad2deg_R (acos x)).
  rewrite He, Hz. unfold SEA. np_eval.
  repeat split; try reflexivity; lra.
Qed.

(** ** Atmospheric refraction (lines 97 to 108) *)

Lemma deg2rad_R_pos_quadrant (e : R) :
  0 < e < 90 -> 0 < deg2rad_R e < PI / 2.
Proof.
  intros [Hlo Hhi]. unfold deg2rad_R. pose proof PI_RGT_0 as Hpi.
  split.
  - apply Rmult_lt_0_compat; lra.
  - replace (PI / 2) with (90 * (PI / 180)) by field.
    apply Rmult_lt_compat_r; lra.
Qed.

Lemma deg2rad_R_neg_quadrant (e : R) :
  -90 < e < 0 -> - (PI / 2) < deg2rad_R e < 0.
Proof.
  intros [Hlo Hhi]. unfold deg2rad_R. pose proof PI_RGT_0 as Hpi.
  split.
  - replace (- (PI / 2)) with (-90 * (PI / 180)) by field.
    apply Rmult_lt_compat_r; lra.
  - assert (0 < - e * (PI / 180)) by (apply Rmult_lt_0_compat; lra). lra.
Qed.

Lemma tan_deg_pos (e : R) : 0 < e < 90 -> 0 < tan (deg2rad_R e).
Proof. intros H. apply tan_gt_0; apply deg2rad_R_pos_quadrant; assumption. Qed.

Lemma tan_deg_neg (e : R) : -90 < e < 0 -> tan (deg2rad_R e) < 0.
Proof. intros H. apply tan_lt_0; apply deg2rad_R_neg_quadrant; assumption. Qed.

Lemma AAR_above_85 (e : R) : 85 < e -> AAR e = Fin 0.
Proof.
  intros H. unfold AAR. rewrite gt_true by lra.
  rewrite div_Fin by lra. f_equal. lra.
Qed.

Lemma AAR_5_to_85 (e : R) :
  5 < e <= 85 ->
  AAR e = Fin ((1 / tan (deg2rad_R e) - 0.07 / tan (deg2rad_R e) ^ 3
                + 0.000086 / tan (deg2rad_R e) ^ 5) / 3600).
Proof.
  intros H. unfold AAR. rewrite gt_false, gt_true by lra.
  assert (Ht : 0 < tan (deg2rad_R e)) by (apply tan_deg_pos; lra).
  np_step.
  rewrite !div_Fin by (try apply pow_nonzero; lra).
  np_step. rewrite div_Fin by lra. reflexivity.
Qed.

Lemma AAR_below_5 (e : R) :
  -0.575 < e <= 5 ->
  AAR e = Fin ((1735 + e * (-518.2 + e * (103.4 + e * (-12.79 + e * 0.711)))) / 3600).
Proof.
  intros H. unfold AAR. rewrite !gt_false, gt_true by lra.
  np_step. rewrite div_Fin by lra. reflexivity.
Qed.

Lemma AAR_below_horizon (e : R) :
  -90 < e <= -0.575 ->
  AAR e = Fin (-20.772 / tan (deg2rad_R e) / 3600).
Proof.
  intros H. unfold AAR. rewrite !gt_false by lra.
  assert (Ht : tan (deg2rad_R e) < 0) by (apply tan_deg_neg; lra).
  np_step. rewrite !div_Fin by lra. reflexivity.
Qed.

(** The refraction as the specification words it: the cotangent, and the
    four intervals of the elevation [e] (degrees) with the arcseconds [r]
    of each. *)
Definition cot (x : R) : R := cos x / sin x.

Definition refraction_arcsec_spec (e r : R) : Prop :=
  (85 < e /\ r = 0) \/
  (5 < e <= 85 /\
   r = cot (deg2rad_R e) - 0.07 * cot (deg2rad_R e) ^ 3
       + 0.000086 * cot (deg2rad_R e) ^ 5) \/
  (-0.575 < e <= 5 /\
   r = 1735 + e * (-518.2 + e * (103.4 + e * (-12.79 + e * 0.711)))) \/
  (e <= -0.575 /\ r = -20.772 / tan (deg2rad_R e)).

Lemma inv_tan_cot (x : R) : 0 < x < PI / 2 -> 1 / tan x = cot x.
Proof.
  intros [Hlo Hhi]. unfold tan, cot.
  assert (0 < sin x) by (apply sin_gt_0; lra).
  assert (0 < cos x) by (apply cos_gt_0; lra).
  field. split; lra.
Qed.

(** The refraction of the source is the one of the specification wherever
    the raw elevation is above the nadir. *)
Lemma AAR_meets_spec (e : R) :
  -90 < e ->
  exists r, refraction_arcsec_spec e r /\ AAR e = Fin (r / 3600).
Proof.
  intros Hnadir. unfold refraction_arcsec_spec.
  destruct (Rlt_dec 85 e) as [H85|H85].
  { exists 0. split; [left; split; [assumption | reflexivity]|].
    rewrite AAR_above_85 by assumption. f_equal. lra. }
  destruct (Rlt_dec 5 e) as [H5|H5].
  { eexists. split; [right; left; split; [lra | reflexivity]|].
    rewrite AAR_5_to_85 by lra.
    assert (Hq : 0 < deg2rad_R e < PI / 2) by (apply deg2rad_R_pos_quadrant; lra).
    pose proof (tan_deg_pos e ltac:(lra)) as Ht.
    rewrite <- (inv_tan_cot _ Hq). f_equal. field. lra. }
  destruct (Rlt_dec (-0.575) e) as [Hh|Hh].
  { eexists. split; [right; right; left; split; [lra | reflexivity]|].
    apply AAR_below_5. lra. }
  eexists. split; [right; right; right; split; [lra | reflexivity]|].
  apply AAR_below_horizon. lra.
Qed.

Lemma solar_angle_Ok_inv year month day hour minute tz lat lon el az :
  solar_angle year month day hour minute tz lat lon = Ok (el, az) ->
  exists days,
    Datetime.days_since_reference year month day = Some days /\
    el = v_SEC' (body days hour minute tz lat lon) /\
    az = v_SAA (body days hour minute tz lat lon).
Proof.
  unfold solar_angle.
  destruct (Datetime.days_since_reference year month day) as [days|]; [|discriminate].
  intros [= <- <-]. exists days. repeat split.
Qed.


(** ** Azimuth (lines 110 to 121) *)

(** The argument of the arccosine, as the specification words it. *)
Definition azimuth_ratio (lat sd z : R) : R :=
  (sin (deg2rad_R lat) * cos (deg2rad_R z) - sin (deg2rad_R sd))
  / (cos (deg2rad_R lat) * sin (deg2rad_R z)).

(** The two branches of the specification: [az] is the azimuth at latitude
    [lat], declination [sd], zenith angle [z] and hour angle [ha]. *)
Definition azimuth_spec (lat sd z ha az : R) : Prop :=
  (ha > 0 /\ az = mod_R (rad2deg_R (acos (azimuth_ratio lat sd z)) + 180) 360) \/
  (ha <= 0 /\ az = mod_R (540 - rad2deg_R (acos (azimuth_ratio lat sd z))) 360).

(** The zenith angle that line 91 computes. *)
Definition zenith_of (lat sd ha : R) : R :=
  rad2deg_R (acos (sin (deg2rad_R lat) * sin (deg2rad_R sd)
                   + cos (deg2rad_R lat) * cos (deg2rad_R sd) * cos (deg2rad_R ha))).

(** With the zenith angle of the cosine rule and a divisor that is not
    zero, the ratio is a cosine: it never leaves [-1, 1]. *)
Lemma azimuth_ratio_in_unit (lat sd ha : R) :
  cos (deg2rad_R lat) * sin (deg2rad_R (zenith_of lat sd ha)) <> 0 ->
  in_unit (azimuth_ratio lat sd (zenith_of lat sd ha)).
Proof.
  unfold azimuth_ratio, zenith_of. rewrite rad2deg_deg2rad.
  set (a := sin (deg2rad_R lat)). set (b := cos (deg2rad_R lat)).
  set (s := sin (deg2rad_R sd)). set (c := cos (deg2rad_R sd)).
  set (k := cos (deg2rad_R ha)).
  pose proof (cosine_rule_in_unit (deg2rad_R lat) (deg2rad_R sd) (deg2rad_R ha)) as HX.
  fold a b s c k in HX. set (X := a * s + b * c * k) in *.
  rewrite cos_acos, sin_acos by exact HX.
  set (q := sqrt (1 - X²)). intros Hden.
  assert (Hb : b <> 0) by (intros E; apply Hden; rewrite E; ring).
  assert (Hq0 : q <> 0) by (intros E; apply Hden; rewrite E; ring).
  assert (Hqpos : 0 < q) by (pose proof (sqrt_pos (1 - X²)); fold q in H; lra).
  assert (Hab : a * a + b * b = 1) by apply sin2_cos2_1.
  assert (Hsc : s * s + c * c = 1) by apply sin2_cos2_1.
  assert (Hqq : q * q = 1 - X * X).
  { unfold q. rewrite sqrt_sqrt; [reflexivity|].
    unfold Rsqr. unfold in_unit in HX. nra. }
  set (u := a * c * k - b * s).
  assert (Hnum : a * X - s = b * u).
  { unfold X, u.
    replace (a * (a * s + b * c * k) - s) with (a * b * c * k + s * (a * a - 1)) by ring.
    replace (a * a - 1) with (- (b * b)) by lra. ring. }
  assert (Hid : 1 - X * X = u * u + c * c * 1 * (1 - k * k)).
  { pose proof (cosine_rule_identity a b s c k) as Hid.
    rewrite Hab, Hsc in Hid. fold X u in Hid. lra. }
  assert (Hk : 0 <= 1 - k * k) by (pose proof (COS_bound (deg2rad_R ha)); fold k in H; nra).
  assert (Hck : 0 <= c * c * 1 * (1 - k * k)).
  { apply Rmult_le_pos; [pose proof (square_nonneg c); lra | assumption]. }
  assert (Huq : u * u <= q * q) by lra.
  assert (Hu : - q <= u <= q) by (split; nra).
  rewrite Hnum.
  replace (b * u / (b * q)) with (u / q) by (field; split; assumption).
  unfold in_unit. split.
  - apply (Rmult_le_reg_r q); [assumption|].
    replace (u / q * q) with u by (field; assumption). lra.
  - apply (Rmult_le_reg_r q); [assumption|].
    replace (u / q * q) with u by (field; assumption). lra.
Qed.

Lemma SAA_zero_divisor (lat sd ha z : R) :
  cos (deg2rad_R lat) * sin (deg2rad_R z) = 0 -> SAA lat sd ha z = NaN.
Proof.
  intros Hden. unfold SAA. np_step. rewrite Hden, !div_zero.
  destruct (Np.gt ha 0); reflexivity.
Qed.

Lemma SAA_eval (lat sd ha : R) :
  let z := zenith_of lat sd ha in
  cos (deg2rad_R lat) * sin (deg2rad_R z) <> 0 ->
  SAA lat sd ha z =
  Fin (if Rgt_dec ha 0
       then mod_R (rad2deg_R (acos (azimuth_ratio lat sd z)) + 180) 360
       else mod_R (540 - rad2deg_R (acos (azimuth_ratio lat sd z))) 360).
Proof.
  intros z Hden. pose proof (azimuth_ratio_in_unit lat sd ha Hden) as Hunit.
  fold z in Hunit. unfold SAA. np_step.
  rewrite !div_Fin by assumption.
  fold (azimuth_ratio lat sd z).
  rewrite arccos_Fin by assumption. np_step.
  unfold Np.gt. destruct (Rgt_dec ha 0); reflexivity.
Qed.

(** The cases of the azimuth: a divisor that is not zero, and a zero one. *)
Lemma azimuth_cases year month day hour minute tz lat lon el az :
  solar_angle year month day hour minute tz lat lon = Ok (el, az) ->
  exists days sd z ha,
    Datetime.days_since_reference year month day = Some days /\
    v_SD (body days hour minute tz lat lon) = Fin sd /\
    v_SZA (body days hour minute tz lat lon) = Fin z /\
    v_HA (body days hour minute tz lat lon) = Fin ha /\
    (cos (deg2rad_R lat) * sin (deg2rad_R z) <> 0 ->
     in_unit (azimuth_ratio lat sd z) /\
     exists a, azimuth_spec lat sd z ha a /\ az = Fin a) /\
    (cos (deg2rad_R lat) * sin (deg2rad_R z) = 0 -> az = NaN).
Proof.
  intros Hcall.
  destruct (solar_angle_Ok_inv _ _ _ _ _ _ _ _ _ _ Hcall) as (days & Hdays & _ & Haz).
  destruct (SD_number days hour minute tz lat lon) as (sd & Hsd & _).
  destruct (HA_number days hour minute tz lat lon) as (t & _ & _ & Hha).
  set (l := body days hour minute tz lat lon) in *.
  assert (Hz : v_SZA l = Fin (zenith_of lat sd (t / 4 - 180))).
  { change (v_SZA l) with (SZA lat (v_SD l) (v_HA l)).
    rewrite Hsd, Hha. apply SZA_eval. }
  assert (Hsaa : v_SAA l = SAA lat sd (t / 4 - 180)%R (zenith_of lat sd (t / 4 - 180))).
  { change (v_SAA l) with (SAA lat (v_SD l) (v_HA l) (v_SZA l)).
    now rewrite Hsd, Hha, Hz. }
  exists days, sd, (zenith_of lat sd (t / 4 - 180)), (t / 4 - 180).
  split; [assumption|]. split; [assumption|]. split; [assumption|].
  split; [assumption|]. split.
  - intros Hden. split; [now apply azimuth_ratio_in_unit|].
    rewrite Haz, Hsaa, SAA_eval by assumption.
    eexists. split; [|reflexivity].
    unfold azimuth_spec. destruct (Rgt_dec (t / 4 - 180) 0).
    + left. split; [assumption | reflexivity].
    + right. split; [lra | reflexivity].
  - intros Hden. rewrite Haz, Hsaa. now apply SAA_zero_divisor.
Qed.


(** ** Bounds on the tangent and on the refraction *)

Lemma sin_cubic_lower (x : R) : 0 <= x <= PI -> x - x ^ 3 / 6 <= sin x.
Proof.
  intros [Hlo Hhi].
  destruct (sin_bound x 0 Hlo Hhi) as [H _].
  replace (x - x ^ 3 / 6) with (sin_approx x (2 * 0 + 1)); [exact H|].
  unfold sin_approx, sin_term. simpl. field.
Qed.

Lemma tan_cubic_lower (lo x : R) :
  0 < lo <= x -> x < PI / 2 -> lo - lo ^ 3 / 6 <= tan x.
Proof.
  intros [Hlo Hx] Hhi. pose proof PI_RGT_0 as Hpi.
  assert (Hsin : lo - lo ^ 3 / 6 <= sin lo) by (apply sin_cubic_lower; lra).
  assert (Hs0 : 0 < sin lo) by (apply sin_gt_0; lra).
  assert (Hc0 : 0 < cos lo) by (apply cos_gt_0; lra).
  assert (Hc1 : cos lo <= 1) by apply COS_bound.
  assert (Htan : sin lo <= tan lo).
  { unfold tan. apply (Rmult_le_reg_r (cos lo)); [assumption|].
    replace (sin lo / cos lo * cos lo) with (sin lo) by (field; lra). nra. }
  assert (Hmono : tan lo <= tan x).
  { destruct (Req_dec lo x) as [->|Hne]; [lra|].
    left. apply tan_increasing; lra. }
  lra.
Qed.

(** Above 5 degrees the tangent is above 0.0832. *)
Lemma tan_deg_above_5 (e : R) : 5 < e < 90 -> 0.0832 < tan (deg2rad_R e).
Proof.
  intros H. pose proof PI2_3_2 as Hpi.
  destruct (deg2rad_R_pos_quadrant e ltac:(lra)) as [_ Hq].
  assert (Hlo : 1 / 12 <= deg2rad_R e) by (unfold deg2rad_R; nra).
  pose proof (tan_cubic_lower (1 / 12) (deg2rad_R e) ltac:(lra) Hq). lra.
Qed.

(** Below -0.575 degrees the tangent is below -0.00958. *)
Lemma tan_deg_below_horizon (e : R) :
  -90 < e <= -0.575 -> tan (deg2rad_R e) < -0.00958.
Proof.
  intros H. pose proof PI2_3_2 as Hpi.
  destruct (deg2rad_R_pos_quadrant (- e) ltac:(lra)) as [_ Hq].
  assert (Hlo : 0.575 / 60 <= deg2rad_R (- e)) by (unfold deg2rad_R; nra).
  pose proof (tan_cubic_lower (0.575 / 60) (deg2rad_R (- e)) ltac:(lra) Hq) as Ht.
  replace (deg2rad_R (- e)) with (- deg2rad_R e) in Ht by (unfold deg2rad_R; ring).
  rewrite tan_neg in Ht. lra.
Qed.

(** The refraction of the second branch, as a polynomial of the cotangent
    [c], lies between -122 and 35 arcseconds. *)
Lemma cot_polynomial_bounds (c : R) :
  0 < c <= 12.02 ->
  -122 <= c - 0.07 * c ^ 3 + 0.000086 * c ^ 5 <= 35.
Proof.
  intros [Hlo Hhi].
  assert (H2 : 0 <= c ^ 2 <= 144.4804) by (simpl; nra).
  assert (H3 : 0 <= c ^ 3 <= 1737) by (replace (c ^ 3) with (c * c ^ 2) by ring; nra).
  assert (H5 : 0 <= c ^ 5 <= 250963) by (replace (c ^ 5) with (c ^ 3 * c ^ 2) by ring; nra).
  lra.
Qed.

Lemma AAR_5_to_85_bounds (e : R) :
  5 < e <= 85 -> exists a, AAR e = Fin a /\ -0.034 <= a <= 0.01.
Proof.
  intros H. rewrite AAR_5_to_85 by assumption.
  eexists. split; [reflexivity|].
  pose proof (tan_deg_above_5 e ltac:(lra)) as Ht.
  set (T := tan (deg2rad_R e)) in *. set (c := / T).
  assert (Hc : 0 < c <= 12.02).
  { unfold c. split; [apply Rinv_0_lt_compat; lra|].
    apply (Rmult_le_reg_r T); [lra|]. rewrite Rinv_l by lra. lra. }
  replace (1 / T - 0.07 / T ^ 3 + 0.000086 / T ^ 5)
    with (c - 0.07 * c ^ 3 + 0.000086 * c ^ 5) by (unfold c; field; lra).
  pose proof (cot_polynomial_bounds c Hc). lra.
Qed.

Lemma AAR_below_5_bounds (e : R) :
  -0.575 < e <= 5 -> exists a, AAR e = Fin a /\ -1 <= a <= 2.
Proof.
  intros H. rewrite AAR_below_5 by assumption.
  eexists. split; [reflexivity|].
  set (a1 := -12.79 + e * 0.711).
  assert (H1 : -13.2 <= a1 <= -9.2) by (unfold a1; lra).
  set (a2 := 103.4 + e * a1).
  assert (H2 : 37 <= a2 <= 111) by (unfold a2; nra).
  set (a3 := -518.2 + e * a2).
  assert (H3 : -583 <= a3 <= 37) by (unfold a3; nra).
  assert (H4 : -1180 <= 1735 + e * a3 <= 2071) by nra.
  lra.
Qed.

Lemma AAR_below_horizon_bounds (e : R) :
  -90 < e <= -0.575 -> exists a, AAR e = Fin a /\ 0 <= a <= 0.61.
Proof.
  intros H. rewrite AAR_below_horizon by assumption.
  eexists. split; [reflexivity|].
  pose proof (tan_deg_below_horizon e H) as Ht.
  set (T := tan (deg2rad_R e)) in *. set (q := / T).
  assert (Hq : -104.4 <= q < 0).
  { unfold q. split; [|apply Rinv_lt_0_compat; lra].
    apply (Rmult_le_reg_r (- T)); [lra|].
    replace (/ T * - T) with (-1) by (field; lra). lra. }
  unfold Rdiv. fold q. lra.
Qed.

(** ** The range of the outputs *)

(** At the nadir the tangent of the last branch has no value; in the model
    its quotient is not a number. *)
Lemma AAR_nadir : AAR (-90) = NaN.
Proof.
  unfold AAR. rewrite !gt_false by lra. np_step.
  assert (Ht : tan (deg2rad_R (-90)) = 0).
  { unfold tan, deg2rad_R.
    replace (-90 * (PI / 180)) with (- (PI / 2)) by field.
    rewrite cos_neg, cos_PI2. unfold Rdiv. rewrite Rinv_0. ring. }
  rewrite Ht, div_zero. reflexivity.
Qed.

Lemma SEC'_range (e el : R) :
  -90 <= e <= 90 -> SEC' e (AAR e) = Fin el -> -90 <= el <= 90.
Proof.
  intros He Hel.
  destruct (Req_dec e (-90)) as [->|Hne].
  { rewrite AAR_nadir in Hel. discriminate. }
  destruct (Rlt_dec 85 e) as [H85|H85].
  { rewrite AAR_above_85 in Hel by assumption. injection Hel as <-. lra. }
  destruct (Rlt_dec 5 e) as [H5|H5].
  { destruct (AAR_5_to_85_bounds e ltac:(lra)) as (a & Ha & Hb).
    rewrite Ha in Hel. injection Hel as <-. lra. }
  destruct (Rlt_dec (-0.575) e) as [Hh|Hh].
  { destruct (AAR_below_5_bounds e ltac:(lra)) as (a & Ha & Hb).
    rewrite Ha in Hel. injection Hel as <-. lra. }
  destruct (AAR_below_horizon_bounds e ltac:(lra)) as (a & Ha & Hb).
  rewrite Ha in Hel. injection Hel as <-. lra.
Qed.

(** C6. When both outputs are numbers (no arccosine left its domain and no
    divisor was zero), the azimuth lies in [0, 360) and the corrected
    elevation in [-90, 90]. *)
Theorem outputs_in_range year month day hour minute tz lat lon (el az : R) :
  solar_angle year month day hour minute tz lat lon = Ok (Fin el, Fin az) ->
  0 <= az < 360 /\ -90 <= el <= 90.
Proof.
  intros Hcall.
  destruct (azimuth_cases year month day hour minute tz lat lon _ _ Hcall)
    as (days & sd & z & ha & Hdays & _ & _ & _ & Hnum & Hnan).
  destruct (solar_angle_Ok_inv _ _ _ _ _ _ _ _ _ _ Hcall) as (days' & Hdays' & Hel & _).
  rewrite Hdays in Hdays'. injection Hdays' as <-.
  split.
  - destruct (Req_dec (cos (deg2rad_R lat) * sin (deg2rad_R z)) 0) as [Hden|Hden].
    { specialize (Hnan Hden). discriminate. }
    destruct (Hnum Hden) as (_ & a & [[_ Ha]|[_ Ha]] & [= ->]);
      rewrite Ha; apply mod_R_range; lra.
  - destruct (SEA_number days hour minute tz lat lon) as (z' & e & _ & _ & He & _ & Hrange).
    apply (SEC'_range e el Hrange).
    change (v_SEC' (body days hour minute tz lat lon))
      with (SEC' (v_SEA (body days hour minute tz lat lon))
                 (AAR (v_SEA (body days hour minute tz lat lon)))) in Hel.
    rewrite He in Hel. now symmetry.
Qed.

(** ** Numerical bounds between the years 1900 and 2100

    Within a century of J2000 the obliquity stays near 23.4 degrees and the
    eccentricity near 0.0167; the equation of time is then below 108
    minutes in absolute value (it is in fact below 17), and the declination
    is strictly between -90 and 90 degrees. *)

(** The Julian century of line 51 as a real number. *)
Definition century_of (days hour minute : Z) (tz : R) : R :=
  (IZR days + 2415018.5 + IZR (hour * 60 + minute) / IZR (24 * 60) - tz / 24 + 1
   - 2451545) / 36525.

Lemma julian_century_eval days hour minute (tz : R) :
  julian_century (julian_day days hour minute tz) = Fin (century_of days hour minute tz).
Proof. unfold julian_century, julian_day, century_of. np_eval. reflexivity. Qed.

Lemma bounded_product (a s B : R) : -1 <= s <= 1 -> 0 <= a <= B -> - B <= a * s <= B.
Proof. intros Hs Ha. split; nra. Qed.

Lemma OC_bounds (T : R) :
  -1 <= T <= 1 -> exists oc, OC T (MOE T) = Fin oc /\ 23.4 < oc < 23.5.
Proof.
  intros HT. unfold OC, MOE. np_eval.
  eexists. split; [reflexivity|].
  pose proof (COS_bound (deg2rad_R (125.04 - 1934.136 * T))) as Hc.
  set (k := cos (deg2rad_R (125.04 - 1934.136 * T))) in *.
  set (p1 := 0.00059 - T * 0.001813).
  assert (H1 : -0.002 <= p1 <= 0.003) by (unfold p1; lra).
  set (p2 := 46.815 + T * p1).
  assert (H2 : 46.8 <= p2 <= 46.83) by (unfold p2; nra).
  assert (H3 : -46.83 <= T * p2 <= 46.83) by nra.
  lra.
Qed.

Lemma EEO_bounds (T : R) :
  -1 <= T <= 1 -> exists E, EEO T = Fin E /\ 0.0166 < E < 0.0168.
Proof.
  intros HT. unfold EEO. np_eval.
  eexists. split; [reflexivity|].
  set (p := 0.000042037 + 0.0000001267 * T).
  assert (H1 : 0.00004 <= p <= 0.00005) by (unfold p; lra).
  assert (H2 : -0.00005 <= T * p <= 0.00005) by nra.
  lra.
Qed.

Lemma tan_PI6_sqr : tan (PI / 6) * tan (PI / 6) = 1 / 3.
Proof.
  rewrite tan_PI6.
  assert (H3 : sqrt 3 * sqrt 3 = 3) by (apply sqrt_sqrt; lra).
  assert (Hs : sqrt 3 <> 0) by (intros E; rewrite E in H3; lra).
  replace (1 / sqrt 3 * (1 / sqrt 3)) with (1 / (sqrt 3 * sqrt 3)) by (field; assumption).
  now rewrite H3.
Qed.

Lemma var_y_bounds (oc : R) :
  0 < oc <= 60 -> exists y, var_y oc = Fin y /\ 0 <= y <= 1 / 3.
Proof.
  intros Hoc. unfold var_y. np_eval.
  eexists. split; [reflexivity|].
  pose proof PI_RGT_0 as Hpi.
  set (x := deg2rad_R (oc / 2)).
  assert (Hx : 0 < x <= PI / 6).
  { unfold x, deg2rad_R. split; [apply Rmult_lt_0_compat; lra|].
    replace (PI / 6) with (30 * (PI / 180)) by field.
    apply Rmult_le_compat_r; lra. }
  assert (Ht0 : 0 < tan x) by (apply tan_gt_0; lra).
  assert (Ht1 : tan x <= tan (PI / 6)).
  { destruct (Req_dec x (PI / 6)) as [->|Hne]; [lra|].
    left. apply tan_increasing; lra. }
  assert (Ht6 : 0 < tan (PI / 6)) by lra.
  pose proof tan_PI6_sqr as Hsq.
  simpl. split; nra.
Qed.

Lemma ET_bounds (gmls gmas E y : R) :
  0 <= y <= 1 / 3 -> 0 <= E <= 0.017 ->
  exists et, ET gmls gmas E y = Fin et /\ -108 < et < 108.
Proof.
  intros Hy HE. unfold ET. np_eval.
  eexists. split; [reflexivity|].
  pose proof (SIN_bound (2 * deg2rad_R gmls)) as Hs1.
  pose proof (SIN_bound (deg2rad_R gmas)) as Hs2.
  pose proof (COS_bound (2 * deg2rad_R gmls)) as Hc1.
  pose proof (SIN_bound (4 * deg2rad_R gmls)) as Hs3.
  pose proof (SIN_bound (2 * deg2rad_R gmas)) as Hs4.
  set (s1 := sin (2 * deg2rad_R gmls)) in *. set (s2 := sin (deg2rad_R gmas)) in *.
  set (c1 := cos (2 * deg2rad_R gmls)) in *. set (s3 := sin (4 * deg2rad_R gmls)) in *.
  set (s4 := sin (2 * deg2rad_R gmas)) in *.
  assert (Hy2 : 0 <= y ^ 2 <= 1 / 9) by (simpl; nra).
  assert (HE2 : 0 <= E ^ 2 <= 0.0003) by (simpl; nra).
  assert (HEy : 0 <= E * y <= 0.006) by nra.
  assert (Hsc : -1 <= s2 * c1 <= 1) by (split; nra).
  pose proof (bounded_product y s1 (1 / 3) Hs1 Hy) as T1.
  pose proof (bounded_product (2 * E) s2 0.034 Hs2 ltac:(lra)) as T2.
  pose proof (bounded_product (4 * (E * y)) (s2 * c1) 0.024 Hsc ltac:(lra)) as T3.
  pose proof (bounded_product (0.5 * y ^ 2) s3 (1 / 18) Hs3 ltac:(lra)) as T4.
  pose proof (bounded_product (1.25 * E ^ 2) s4 0.0004 Hs4 ltac:(lra)) as T5.
  set (S := y * s1 - 2 * E * s2 + 4 * E * y * s2 * c1 - 0.5 * y ^ 2 * s3
            - 1.25 * E ^ 2 * s4).
  assert (HS : -0.45 <= S <= 0.45) by (unfold S; lra).
  pose proof PI2_3_2 as Hpi.
  unfold rad2deg_R.
  assert (Hk : 0 < 180 / PI < 60).
  { split; [apply Rdiv_lt_0_compat; lra|].
    apply (Rmult_lt_reg_r PI); [lra|].
    replace (180 / PI * PI) with 180 by (field; lra). lra. }
  split; nra.
Qed.

Lemma ET_small days hour minute tz lat lon :
  -1 <= century_of days hour minute tz <= 1 ->
  exists et, v_ET (body days hour minute tz lat lon) = Fin et /\ -108 < et < 108.
Proof.
  intros HT. cbn [body v_ET]. rewrite julian_century_eval.
  set (T := century_of days hour minute tz) in *.
  destruct (OC_bounds T HT) as (oc & -> & Hoc).
  destruct (EEO_bounds T HT) as (E & -> & HE).
  destruct (var_y_bounds oc ltac:(lra)) as (y & -> & Hy).
  assert (Hl : exists gmls, GMLS T = Fin gmls) by (unfold GMLS; np_eval; eexists; reflexivity).
  assert (Hm : exists gmas, GMAS T = Fin gmas) by (unfold GMAS; np_eval; eexists; reflexivity).
  destruct Hl as [gmls ->]. destruct Hm as [gmas ->].
  apply ET_bounds; lra.
Qed.

Lemma sin_deg_bounds (x : R) : 0 < x < 90 -> 0 < sin (deg2rad_R x) < 1.
Proof.
  intros Hx. destruct (deg2rad_R_pos_quadrant x Hx) as [Hlo Hhi].
  pose proof PI_RGT_0 as Hpi. split.
  - apply sin_gt_0; lra.
  - rewrite <- sin_PI2. apply sin_increasing_1; lra.
Qed.

(** The declination is strictly inside (-90, 90), and below the horizon of
    the pole (negative) exactly when the sine of the apparent longitude is
    negative. *)
Lemma SD_strict days hour minute tz lat lon :
  -1 <= century_of days hour minute tz <= 1 ->
  let l := body days hour minute tz lat lon in
  exists oc sal sd,
    v_OC l = Fin oc /\ 23.4 < oc < 23.5 /\ v_SAL l = Fin sal /\
    v_SD l = Fin sd /\ -90 < sd < 90 /\
    sin (deg2rad_R sd) = sin (deg2rad_R oc) * sin (deg2rad_R sal).
Proof.
  intros HT l.
  destruct (OC_SAL_number days hour minute tz lat lon) as (oc' & sal & Hoc' & Hsal).
  fold l in Hoc', Hsal.
  assert (Hoc : v_OC l = OC (century_of days hour minute tz)
                            (MOE (century_of days hour minute tz))).
  { unfold l. cbn [body v_OC]. now rewrite julian_century_eval. }
  destruct (OC_bounds _ HT) as (oc & Hoc2 & Hb). rewrite Hoc2 in Hoc.
  exists oc, sal.
  assert (Hsd : v_SD l = SD (v_OC l) (v_SAL l)) by reflexivity.
  rewrite Hoc, Hsal, SD_eval in Hsd.
  set (x := sin (deg2rad_R oc) * sin (deg2rad_R sal)) in *.
  assert (Hx : -1 < x < 1).
  { pose proof (sin_deg_bounds oc ltac:(lra)). pose proof (SIN_bound (deg2rad_R sal)).
    unfold x. split; nra. }
  exists (rad2deg_R (asin x)).
  repeat split; try assumption; try lra.
  - pose proof (asin_bound_lt x Hx) as [Hlo _]. pose proof PI_RGT_0.
    unfold rad2deg_R.
    apply (Rmult_lt_reg_r (PI / 180)); [lra|].
    replace (asin x * (180 / PI) * (PI / 180)) with (asin x) by (field; lra). lra.
  - pose proof (asin_bound_lt x Hx) as [_ Hhi]. pose proof PI_RGT_0.
    unfold rad2deg_R.
    apply (Rmult_lt_reg_r (PI / 180)); [lra|].
    replace (asin x * (180 / PI) * (PI / 180)) with (asin x) by (field; lra). lra.
  - rewrite rad2deg_deg2rad. apply sin_asin. lra.
Qed.

Lemma cos_deg_strict (h : R) :
  -180 < h < 180 -> h <> 0 -> -1 < cos (deg2rad_R h) < 1.
Proof.
  intros Hh Hne. pose proof PI_RGT_0 as Hpi.
  assert (Hpos : forall x, 0 < x < PI -> -1 < cos x < 1).
  { intros x Hx. split.
    - rewrite <- cos_PI. apply cos_decreasing_1; lra.
    - rewrite <- cos_0. apply cos_decreasing_1; lra. }
  assert (Hscale : forall d, 0 < d < 180 -> 0 < deg2rad_R d < PI).
  { intros d Hd. unfold deg2rad_R. split; [apply Rmult_lt_0_compat; lra|].
    replace PI with (180 * (PI / 180)) at 2 by field.
    apply Rmult_lt_compat_r; lra. }
  destruct (Rlt_dec 0 h) as [Hp|Hn].
  - apply Hpos, Hscale. lra.
  - rewrite <- cos_neg.
    replace (- deg2rad_R h) with (deg2rad_R (- h)) by (unfold deg2rad_R; ring).
    apply Hpos, Hscale. lra.
Qed.

(** Away from the poles, from the instants of true solar noon and midnight
    and within a century of J2000, both outputs are numbers. *)
Lemma outputs_are_numbers days hour minute tz lat lon t :
  let l := body days hour minute tz lat lon in
  -1 <= century_of days hour minute tz <= 1 ->
  cos (deg2rad_R lat) <> 0 ->
  v_TST l = Fin t -> t <> 0 -> t <> 720 ->
  exists e el az,
    v_SEA l = Fin e /\ -90 < e < 90 /\ v_SEC' l = Fin el /\ v_SAA l = Fin az.
Proof.
  intros l HT Hlat Ht Ht0 Ht720.
  destruct (SD_strict days hour minute tz lat lon HT)
    as (oc & sal & sd & _ & _ & _ & Hsd & Hsdr & _).
  destruct (HA_number days hour minute tz lat lon) as (t' & Ht' & Htr & Hha).
  fold l in Hsd, Ht', Hha. rewrite Ht in Ht'. injection Ht' as <-.
  set (ha := t / 4 - 180) in *.
  assert (Hz : v_SZA l = Fin (zenith_of lat sd ha)).
  { change (v_SZA l) with (SZA lat (v_SD l) (v_HA l)).
    rewrite Hsd, Hha. apply SZA_eval. }
  pose proof (cos_deg_strict ha ltac:(unfold ha; lra) ltac:(unfold ha; lra)) as Hk.
  assert (Hc : 0 < cos (deg2rad_R sd)).
  { destruct (Rlt_dec 0 sd) as [Hp|Hn].
    - apply cos_gt_0; pose proof (deg2rad_R_pos_quadrant sd ltac:(lra)); lra.
    - destruct (Req_dec sd 0) as [->|Hne].
      + unfold deg2rad_R. rewrite Rmult_0_l, cos_0. lra.
      + apply cos_gt_0; pose proof (deg2rad_R_neg_quadrant sd ltac:(lra));
          pose proof PI_RGT_0; lra. }
  (* the cosine of the zenith angle is strictly inside (-1, 1) *)
  pose proof (cosine_rule_in_unit (deg2rad_R lat) (deg2rad_R sd) (deg2rad_R ha)) as HX.
  pose proof (cosine_rule_identity (sin (deg2rad_R lat)) (cos (deg2rad_R lat))
                (sin (deg2rad_R sd)) (cos (deg2rad_R sd)) (cos (deg2rad_R ha))) as Hid.
  rewrite (sin2_cos2_1 (deg2rad_R lat)), (sin2_cos2_1 (deg2rad_R sd)) in Hid.
  set (X := sin (deg2rad_R lat) * sin (deg2rad_R sd)
            + cos (deg2rad_R lat) * cos (deg2rad_R sd) * cos (deg2rad_R ha)) in *.
  assert (Hstrict : -1 < X < 1).
  { pose proof (square_nonneg (sin (deg2rad_R lat) * cos (deg2rad_R sd) * cos (deg2rad_R ha)
                               - cos (deg2rad_R lat) * sin (deg2rad_R sd))) as Hu.
    assert (Hck : 0 < cos (deg2rad_R sd) * cos (deg2rad_R sd) * 1
                      * (1 - cos (deg2rad_R ha) * cos (deg2rad_R ha))).
    { apply Rmult_lt_0_compat; nra. }
    assert (HXX : X * X < 1) by lra.
    split; nra. }
  pose proof (acos_bound_lt X Hstrict) as Hacos.
  assert (Hzr : 0 < zenith_of lat sd ha < 180).
  { unfold zenith_of. fold X. unfold rad2deg_R. pose proof PI_RGT_0 as Hpi. split.
    - apply Rmult_lt_0_compat; [lra | apply Rdiv_lt_0_compat; lra].
    - apply (Rmult_lt_reg_r (PI / 180)); [lra|].
      replace (acos X * (180 / PI) * (PI / 180)) with (acos X) by (field; lra).
      replace (180 * (PI / 180)) with PI by field. lra. }
  set (z := zenith_of lat sd ha) in *.
  assert (Hsinz : 0 < sin (deg2rad_R z)).
  { pose proof PI_RGT_0 as Hpi. apply sin_gt_0; unfold deg2rad_R.
    - apply Rmult_lt_0_compat; lra.
    - replace PI with (180 * (PI / 180)) at 2 by field.
      apply Rmult_lt_compat_r; lra. }
  assert (He : v_SEA l = Fin (90 - z)).
  { change (v_SEA l) with (SEA (v_SZA l)). rewrite Hz. unfold SEA. np_eval. reflexivity. }
  destruct (AAR_meets_spec (90 - z) ltac:(lra)) as (r & _ & Hr).
  exists (90 - z), (90 - z + r / 3600). eexists.
  split; [assumption|]. split; [lra|]. split.
  - change (v_SEC' l) with (SEC' (v_SEA l) (AAR (v_SEA l))).
    rewrite He, Hr. reflexivity.
  - change (v_SAA l) with (SAA lat (v_SD l) (v_HA l) (v_SZA l)).
    rewrite Hsd, Hha, Hz. apply SAA_eval.
    fold z. apply Rmult_integral_contrapositive_currified; [assumption | lra].
Qed.

(** ** A concrete call: 2020-06-20, 06:00 UTC, latitude 40, longitude 0 *)

Lemma days_2020_06_20 : Datetime.days_since_reference 2020 6 20 = Some 44001%Z.
Proof. reflexivity. Qed.

Lemma century_2020_06_20 (hour minute : Z) :
  (0 <= hour * 60 + minute < 1440)%Z ->
  0.2 <= century_of 44001 hour minute 0 <= 0.21.
Proof.
  intros [Hlo Hhi]. unfold century_of.
  apply IZR_le in Hlo. apply IZR_lt in Hhi.
  set (m := IZR (hour * 60 + minute)) in *.
  replace (IZR (24 * 60)) with 1440 by (simpl; lra).
  assert (Hf : 0 <= m / 1440 < 1).
  { split.
    - apply Rmult_le_pos; lra.
    - apply (Rmult_lt_reg_r 1440); [lra|].
      replace (m / 1440 * 1440) with m by field. lra. }
  lra.
Qed.

Lemma TST_2020_06_20_morning :
  exists t, v_TST (body 44001 6 0 0 40 0) = Fin t /\ 252 < t < 468.
Proof.
  destruct (ET_small 44001 6 0 0 40 0) as (et & Het & Hb).
  { pose proof (century_2020_06_20 6 0 ltac:(lia)). lra. }
  cbn [body v_ET] in Het. cbn [body v_TST]. rewrite Het, TST_eval.
  replace (IZR (6 * 60 + 0) / IZR (24 * 60) * 1440 + et + 4 * 0 - 60 * 0)
    with (360 + et) by (simpl; field).
  rewrite mod_R_small by lra.
  eexists. split; [reflexivity | lra].
Qed.

Lemma cos_40_nonzero : cos (deg2rad_R 40) <> 0.
Proof.
  pose proof (deg2rad_R_pos_quadrant 40 ltac:(lra)) as Hq. pose proof PI_RGT_0.
  assert (0 < cos (deg2rad_R 40)) by (apply cos_gt_0; lra). lra.
Qed.

Lemma call_2020_06_20_morning :
  exists e el az,
    v_SEA (body 44001 6 0 0 40 0) = Fin e /\ -90 < e < 90 /\
    solar_angle 2020 6 20 6 0 0 40 0 = Ok (Fin el, Fin az).
Proof.
  destruct TST_2020_06_20_morning as (t & Ht & Hb).
  destruct (outputs_are_numbers 44001 6 0 0 40 0 t) as (e & el & az & He & Her & Hel & Haz);
    try assumption; try lra.
  { pose proof (century_2020_06_20 6 0 ltac:(lia)). lra. }
  { apply cos_40_nonzero. }
  exists e, el, az. split; [assumption|]. split; [assumption|].
  rewrite (solar_angle_of_days _ _ _ _ _ _ _ _ _ days_2020_06_20).
  now rewrite Hel, Haz.
Qed.

Lemma outputs_in_range_witness :
  exists el az,
    solar_angle 2020 6 20 6 0 0 40 0 = Ok (Fin el, Fin az) /\
    0 <= az < 360 /\ -90 <= el <= 90.
Proof.
  destruct call_2020_06_20_morning as (e & el & az & _ & _ & Hcall).
  exists el, az. split; [assumption|].
  exact (outputs_in_range 2020 6 20 6 0 0 40 0 el az Hcall).
Defined.



(** ** The apparent longitude of the Sun, numerically *)





(** ** The North Pole (lat = 90) *)


Lemma sin_cos_deg_90 : sin (deg2rad_R 90) = 1 /\ cos (deg2rad_R 90) = 0.
Proof.
  unfold deg2rad_R. replace (90 * (PI / 180)) with (PI / 2) by field.
  split; [apply sin_PI2 | apply cos_PI2].
Qed.

(** At the pole the zenith angle is the complement of the declination. *)
Lemma zenith_at_pole (sd ha : R) :
  -90 <= sd <= 90 -> zenith_of 90 sd ha = 90 - sd.
Proof.
  intros Hsd. unfold zenith_of. destruct sin_cos_deg_90 as [-> ->].
  replace (1 * sin (deg2rad_R sd) + 0 * cos (deg2rad_R sd) * cos (deg2rad_R ha))
    with (sin (deg2rad_R sd)) by ring.
  pose proof PI_RGT_0 as Hpi.
  assert (Hq : - (PI / 2) <= deg2rad_R sd <= PI / 2).
  { unfold deg2rad_R. split.
    - replace (- (PI / 2)) with (-90 * (PI / 180)) by field.
      apply Rmult_le_compat_r; lra.
    - replace (PI / 2) with (90 * (PI / 180)) by field.
      apply Rmult_le_compat_r; lra. }
  rewrite acos_asin by apply SIN_bound.
  rewrite asin_sin by exact Hq.
  unfold rad2deg_R, deg2rad_R. field. lra.
Qed.







(** ** The refraction at the 5 degree boundary *)

(** The corrected elevation as a function of the raw elevation (lines 97 to
    108). *)
Definition corrected_elevation (e : R) : R := value (SEC' e (AAR e)).

Lemma corrected_elevation_at_5 : corrected_elevation 5 = 5 + 574.625 / 3600.
Proof.
  unfold corrected_elevation. rewrite AAR_below_5 by lra.
  unfold SEC'. np_step. unfold value. lra.
Qed.

Lemma corrected_elevation_above_5 (e : R) :
  5 < e <= 85 -> corrected_elevation e <= e + 0.01.
Proof.
  intros He. unfold corrected_elevation.
  destruct (AAR_5_to_85_bounds e He) as (a & -> & Ha).
  unfold SEC'. np_step. unfold value. lra.
Qed.

(** C1. The branch formulas do not agree at 5 degrees: at a raw elevation
    of 5 the third branch gives 574.625 arcseconds (0.1596 degrees), just
    above 5 the second branch gives less than 36 arcseconds (0.01 degrees),
    and the corrected elevation is not continuous at 5. *)
Theorem refraction_jumps_at_5_degrees :
  AAR 5 = Fin (574.625 / 3600) /\
  (forall e, 5 < e <= 85 -> exists a, AAR e = Fin a /\ a <= 0.01) /\
  ~ continuity_pt corrected_elevation 5.
Proof.
  split; [|split].
  - rewrite AAR_below_5 by lra. f_equal. lra.
  - intros e He. destruct (AAR_5_to_85_bounds e He) as (a & Ha & Hb).
    exists a. split; [assumption | lra].
  - intros Hcont.
    destruct (Hcont 0.1 ltac:(lra)) as (alp & Halp & Hlim).
    set (x := 5 + Rmin (alp / 2) 0.01).
    assert (Hmin : 0 < Rmin (alp / 2) 0.01 <= 0.01).
    { split; [apply Rmin_glb_lt; lra | apply Rmin_r]. }
    assert (Hmin' : Rmin (alp / 2) 0.01 <= alp / 2) by apply Rmin_l.
    specialize (Hlim x).
    assert (Hx : D_x no_cond 5 x /\ R_dist x 5 < alp).
    { split.
      - split; [exact I | unfold x; lra].
      - unfold R_dist, x. rewrite Rabs_pos_eq; lra. }
    apply Hlim in Hx. simpl in Hx. unfold R_dist in Hx.
    rewrite corrected_elevation_at_5 in Hx.
    pose proof (corrected_elevation_above_5 x ltac:(unfold x; lra)) as Hup.
    apply Rabs_def2 in Hx. unfold x in *. lra.
Qed.

(** * Further properties of the body *)

(** ** Clock, time zone and longitude (lines 50 and 84) *)







(** ** The side of the meridian (lines 110 to 121) *)

(** The angle between the Sun and the south, in degrees: the arccosine of
    the ratio, between 0 and 180. *)
Definition meridian_angle (lat sd z : R) : R :=
  rad2deg_R (acos (azimuth_ratio lat sd z)).

Lemma meridian_angle_range (lat sd z : R) : 0 <= meridian_angle lat sd z <= 180.
Proof.
  unfold meridian_angle. apply rad2deg_R_bounds.
  pose proof (acos_bound (azimuth_ratio lat sd z)). pose proof PI_RGT_0.
  replace (180 * (PI / 180)) with PI by field. lra.
Qed.

Lemma mod_R_morning (A : R) : 0 <= A <= 180 -> mod_R (540 - A) 360 = 180 - A.
Proof.
  intros HA. replace (540 - A) with (180 - A + 360) by ring.
  rewrite mod_R_shift by lra. apply mod_R_small. lra.
Qed.

Lemma mod_R_afternoon (A : R) :
  0 <= A <= 180 ->
  (A < 180 /\ mod_R (A + 180) 360 = A + 180) \/ (A = 180 /\ mod_R (A + 180) 360 = 0).
Proof.
  intros HA. destruct (Req_dec A 180) as [->|Hne].
  - right. split; [reflexivity|].
    replace (180 + 180) with (0 + 360) by ring.
    rewrite mod_R_shift by lra. apply mod_R_small. lra.
  - left. split; [lra|]. apply mod_R_small. lra.
Qed.

(** X3. A returned azimuth that is a number tells the side of the
    meridian: up to true solar noon ([HA <= 0]) it lies in [0, 180] (east),
    after it ([HA > 0]) in [180, 360), or it is 0 (due north). *)
Theorem azimuth_side_of_meridian year month day hour minute tz lat lon el (az : R) :
  solar_angle year month day hour minute tz lat lon = Ok (el, Fin az) ->
  exists days ha,
    Datetime.days_since_reference year month day = Some days /\
    v_HA (body days hour minute tz lat lon) = Fin ha /\
    (ha <= 0 -> 0 <= az <= 180) /\
    (ha > 0 -> 180 <= az < 360 \/ az = 0).
Proof.
  intros Hcall.
  destruct (azimuth_cases year month day hour minute tz lat lon _ _ Hcall)
    as (days & sd & z & ha & Hdays & _ & _ & Hha & Hnum & Hnan).
  exists days, ha. split; [assumption|]. split; [assumption|].
  destruct (Req_dec (cos (deg2rad_R lat) * sin (deg2rad_R z)) 0) as [Hden|Hden].
  { specialize (Hnan Hden). discriminate. }
  destruct (Hnum Hden) as (_ & a & Hspec & [= ->]).
  pose proof (meridian_angle_range lat sd z) as HA.
  unfold meridian_angle in HA.
  destruct Hspec as [[Hpos ->]|[Hneg ->]]; split; intros Hsign; try lra.
  - destruct (mod_R_afternoon _ HA) as [[Hlt ->]|[_ ->]]; [left; lra | right; reflexivity].
  - rewrite mod_R_morning by assumption. lra.
Qed.

Lemma azimuth_side_of_meridian_witness :
  exists el az ha,
    solar_angle 2020 6 20 6 0 0 40 0 = Ok (el, Fin az) /\
    v_HA (body 44001 6 0 0 40 0) = Fin ha /\ ha <= 0 /\ 0 <= az <= 180.
Proof.
  destruct call_2020_06_20_morning as (e & el & az & _ & _ & Hcall).
  destruct (azimuth_side_of_meridian 2020 6 20 6 0 0 40 0 _ _ Hcall)
    as (days & ha & Hdays & Hha & Heast & _).
  rewrite days_2020_06_20 in Hdays. injection Hdays as <-.
  destruct TST_2020_06_20_morning as (t & Ht & Hb).
  destruct (HA_number 44001 6 0 0 40 0) as (t' & Ht' & _ & Hha').
  rewrite Ht in Ht'. injection Ht' as <-.
  rewrite Hha' in Hha. injection Hha as <-.
  exists (Fin el), az, (t / 4 - 180).
  split; [assumption|]. split; [assumption|].
  split; [lra | apply Heast; lra].
Defined.





(** ** Sunrise, sunset and the length of the day (lines 76 to 83) *)

Lemma cos_deg_pos (x : R) : -90 < x < 90 -> 0 < cos (deg2rad_R x).
Proof.
  intros Hx. pose proof PI_RGT_0 as Hpi. apply cos_gt_0; unfold deg2rad_R.
  - replace (- (PI / 2)) with (-90 * (PI / 180)) by field.
    apply Rmult_lt_compat_r; lra.
  - replace (PI / 2) with (90 * (PI / 180)) by field.
    apply Rmult_lt_compat_r; lra.
Qed.

(** The argument of the arccosine of line 77, over a common divisor. *)
Definition sunrise_cosine (lat sd : R) : R :=
  (cos (deg2rad_R 90.833) - sin (deg2rad_R lat) * sin (deg2rad_R sd))
  / (cos (deg2rad_R lat) * cos (deg2rad_R sd)).

Lemma HAS_cases (lat sd : R) :
  -90 < lat < 90 -> -90 < sd < 90 ->
  (in_unit (sunrise_cosine lat sd) ->
   HAS lat sd = Fin (rad2deg_R (acos (sunrise_cosine lat sd)))) /\
  (~ in_unit (sunrise_cosine lat sd) -> HAS lat sd = NaN).
Proof.
  intros Hlat Hsd.
  pose proof (cos_deg_pos lat Hlat) as Hcl. pose proof (cos_deg_pos sd Hsd) as Hcs.
  assert (Hc : cos (deg2rad_R lat) * cos (deg2rad_R sd) <> 0).
  { apply Rmult_integral_contrapositive_currified; lra. }
  assert (Harg : HAS lat sd = Np.rad2deg (Np.arccos (Fin (sunrise_cosine lat sd)))).
  { unfold HAS. np_step. rewrite div_Fin by assumption. np_step.
    do 3 f_equal. unfold sunrise_cosine, tan. field. lra. }
  rewrite Harg. split; intros H.
  - rewrite arccos_Fin by assumption. reflexivity.
  - unfold Np.arccos. destruct (in_unit_dec (sunrise_cosine lat sd)); [contradiction|].
    reflexivity.
Qed.

Lemma sunrise_cosine_in_unit_iff (lat sd : R) :
  -90 < lat < 90 -> -90 < sd < 90 ->
  in_unit (sunrise_cosine lat sd) <->
  - cos (deg2rad_R (lat + sd)) <= cos (deg2rad_R 90.833) <= cos (deg2rad_R (lat - sd)).
Proof.
  intros Hlat Hsd.
  pose proof (cos_deg_pos lat Hlat) as Hcl. pose proof (cos_deg_pos sd Hsd) as Hcs.
  replace (deg2rad_R (lat + sd)) with (deg2rad_R lat + deg2rad_R sd)
    by (unfold deg2rad_R; ring).
  replace (deg2rad_R (lat - sd)) with (deg2rad_R lat - deg2rad_R sd)
    by (unfold deg2rad_R; ring).
  rewrite cos_plus, cos_minus. unfold sunrise_cosine, in_unit.
  set (c := cos (deg2rad_R lat) * cos (deg2rad_R sd)).
  set (s := sin (deg2rad_R lat) * sin (deg2rad_R sd)).
  set (z0 := cos (deg2rad_R 90.833)).
  assert (Hc : 0 < c) by (apply Rmult_lt_0_compat; assumption).
  assert (Hq : (z0 - s) / c * c = z0 - s) by (field; lra).
  split; intros [H1 H2].
  - split; nra.
  - split.
    + apply (Rmult_le_reg_r c); [assumption|]. rewrite Hq. lra.
    + apply (Rmult_le_reg_r c); [assumption|]. rewrite Hq. lra.
Qed.

(** X5. Between the poles, for a declination [sd] strictly between -90 and
    90, the half-span [HAS] of the day is a number, between 0 and 180
    degrees, exactly when
    [-cos(lat + sd) <= cos(90.833 deg) <= cos(lat - sd)]: when the Sun both
    rises and sets.  Otherwise (polar night, midnight sun) it is not a
    number. *)
Theorem day_span_is_a_number_iff (lat sd : R) :
  -90 < lat < 90 -> -90 < sd < 90 ->
  (- cos (deg2rad_R (lat + sd)) <= cos (deg2rad_R 90.833) <= cos (deg2rad_R (lat - sd)) ->
   exists h, HAS lat sd = Fin h /\ 0 <= h <= 180) /\
  (~ (- cos (deg2rad_R (lat + sd)) <= cos (deg2rad_R 90.833)
      <= cos (deg2rad_R (lat - sd))) ->
   HAS lat sd = NaN).
Proof.
  intros Hlat Hsd.
  destruct (HAS_cases lat sd Hlat Hsd) as [Hin Hout].
  pose proof (sunrise_cosine_in_unit_iff lat sd Hlat Hsd) as Hiff.
  split; intros H.
  - eexists. split; [apply Hin, Hiff, H|].
    apply rad2deg_R_bounds.
    pose proof (acos_bound (sunrise_cosine lat sd)). pose proof PI_RGT_0.
    replace (180 * (PI / 180)) with PI by field. lra.
  - apply Hout. intros Hu. apply H, Hiff, Hu.
Qed.

Lemma day_span_is_a_number_iff_witness :
  exists h, HAS 0 0 = Fin h /\ 0 <= h <= 180.
Proof.
  apply (day_span_is_a_number_iff 0 0); try lra.
  replace (0 + 0) with 0 by ring. replace (0 - 0) with 0 by ring.
  assert (H0 : cos (deg2rad_R 0) = 1).
  { unfold deg2rad_R. rewrite Rmult_0_l. apply cos_0. }
  rewrite H0. pose proof (COS_bound (deg2rad_R 90.833)). lra.
Defined.

Lemma HAS_number_range (lat sd : num) (h : R) :
  HAS lat sd = Fin h -> 0 <= h <= 180.
Proof.
  unfold HAS. intros H.
  destruct (Np.arccos _) as [r|] eqn:Hr; [|discriminate].
  injection H as <-.
  apply arccos_Fin_inv in Hr. destruct Hr as (x & _ & _ & ->).
  apply rad2deg_R_bounds. pose proof (acos_bound x). pose proof PI_RGT_0.
  replace (180 * (PI / 180)) with PI by field. lra.
Qed.

(** X6. Solar noon is always a number.  When [HAS] is a number, sunrise
    and sunset are numbers placed symmetrically around solar noon, their
    distance is the sunlight duration (minutes, as a fraction of 1440), and
    the duration lies between 0 and 1440 minutes.  When [HAS] is not a
    number, neither are sunrise, sunset and duration. *)
Theorem sunrise_sunset_around_solar_noon days hour minute tz lat lon :
  let l := body days hour minute tz lat lon in
  exists sn,
    v_SN l = Fin sn /\
    ((exists h r s d,
         v_HAS l = Fin h /\ v_SrT l = Fin r /\ v_SsT l = Fin s /\ v_SlD l = Fin d /\
         d = 8 * h /\ 0 <= d <= 1440 /\
         r <= sn <= s /\ r + s = 2 * sn /\ (s - r) * 1440 = d) \/
     (v_HAS l = NaN /\ v_SrT l = NaN /\ v_SsT l = NaN /\ v_SlD l = NaN)).
Proof.
  intros l.
  destruct (ET_number days hour minute tz lat lon) as [et Het]. fold l in Het.
  assert (Hsn : v_SN l = SN tz lon (v_ET l)) by reflexivity.
  rewrite Het in Hsn. unfold SN in Hsn. revert Hsn. np_eval. intros Hsn.
  eexists. split; [exact Hsn|].
  assert (Hr : v_SrT l = SrT (v_SN l) (v_HAS l)) by reflexivity.
  assert (Hs : v_SsT l = SsT (v_SN l) (v_HAS l)) by reflexivity.
  assert (Hd : v_SlD l = SlD (v_HAS l)) by reflexivity.
  rewrite Hsn in Hr, Hs.
  destruct (v_HAS l) as [h|] eqn:Hh.
  - left. pose proof (HAS_number_range lat (v_SD l) h Hh) as Hrange.
    unfold SrT in Hr. unfold SsT in Hs. unfold SlD in Hd.
    revert Hr Hs Hd. np_eval. intros Hr Hs Hd.
    exists h. do 3 eexists.
    split; [reflexivity|]. split; [exact Hr|]. split; [exact Hs|]. split; [exact Hd|].
    repeat split; lra.
  - right. rewrite Hr, Hs, Hd. repeat split; reflexivity.
Qed.

(** ** Declination, equation of time and radius vector, 1900 to 2100 *)

Lemma deg2rad_R_quadrants (x : R) :
  -90 <= x <= 90 -> - (PI / 2) <= deg2rad_R x <= PI / 2.
Proof.
  intros Hx. pose proof PI_RGT_0 as Hpi. unfold deg2rad_R. split.
  - replace (- (PI / 2)) with (-90 * (PI / 180)) by field.
    apply Rmult_le_compat_r; lra.
  - replace (PI / 2) with (90 * (PI / 180)) by field.
    apply Rmult_le_compat_r; lra.
Qed.

Lemma sin_deg_lt (x y : R) :
  -90 <= x <= 90 -> -90 <= y <= 90 -> x < y -> sin (deg2rad_R x) < sin (deg2rad_R y).
Proof.
  intros Hx Hy Hlt. pose proof PI_RGT_0 as Hpi.
  pose proof (deg2rad_R_quadrants x Hx). pose proof (deg2rad_R_quadrants y Hy).
  apply sin_increasing_1; try lra.
  unfold deg2rad_R. apply Rmult_lt_compat_r; lra.
Qed.

Lemma declination_bounds days hour minute tz lat lon :
  -1 <= century_of days hour minute tz <= 1 ->
  let l := body days hour minute tz lat lon in
  exists oc sd,
    v_OC l = Fin oc /\ 23.4 < oc < 23.5 /\ v_SD l = Fin sd /\ - oc <= sd <= oc.
Proof.
  intros HT l.
  destruct (SD_strict days hour minute tz lat lon HT)
    as (oc & sal & sd & Hoc & Hocr & _ & Hsd & Hsdr & Hsin).
  fold l in Hoc, Hsd. exists oc, sd.
  split; [assumption|]. split; [assumption|]. split; [assumption|].
  pose proof (sin_deg_bounds oc ltac:(lra)) as Hso.
  pose proof (SIN_bound (deg2rad_R sal)) as Hss.
  split.
  - destruct (Rle_dec (- oc) sd) as [H|H]; [assumption|]. exfalso.
    pose proof (sin_deg_lt sd (- oc) ltac:(lra) ltac:(lra) ltac:(lra)) as Hlt.
    replace (deg2rad_R (- oc)) with (- deg2rad_R oc) in Hlt by (unfold deg2rad_R; ring).
    rewrite sin_neg, Hsin in Hlt. nra.
  - destruct (Rle_dec sd oc) as [H|H]; [assumption|]. exfalso.
    pose proof (sin_deg_lt oc sd ltac:(lra) ltac:(lra) ltac:(lra)) as Hlt.
    rewrite Hsin in Hlt. nra.
Qed.

(** X7. Between 1900 and 2100 the obliquity lies between 23.4 and 23.5
    degrees and the declination never exceeds it: the arcsine of line 68
    stays well inside its domain. *)
Theorem declination_within_obliquity days hour minute tz lat lon :
  -1 <= century_of days hour minute tz <= 1 ->
  let l := body days hour minute tz lat lon in
  exists oc sd,
    v_OC l = Fin oc /\ 23.4 < oc < 23.5 /\ v_SD l = Fin sd /\ - oc <= sd <= oc.
Proof. exact (declination_bounds days hour minute tz lat lon). Qed.

Lemma century_2020_06_20_6h : -1 <= century_of 44001 6 0 0 <= 1.
Proof. pose proof (century_2020_06_20 6 0 ltac:(lia)). lra. Qed.

Lemma declination_within_obliquity_witness :
  exists oc sd,
    v_OC (body 44001 6 0 0 40 0) = Fin oc /\ 23.4 < oc < 23.5 /\
    v_SD (body 44001 6 0 0 40 0) = Fin sd /\ - oc <= sd <= oc.
Proof.
  exact (declination_within_obliquity 44001 6 0 0 40 0 century_2020_06_20_6h).
Defined.

Lemma cos_quadratic_lower (x : R) : - (PI / 2) <= x <= PI / 2 -> 1 - x ^ 2 / 2 <= cos x.
Proof.
  intros [Hlo Hhi].
  destruct (cos_bound x 0 ltac:(lra) Hhi) as [H _].
  replace (1 - x ^ 2 / 2) with (cos_approx x (2 * 0 + 1)); [exact H|].
  unfold cos_approx, cos_term. simpl. field.
Qed.

Lemma var_y_near_J2000 (oc : R) :
  23.4 < oc < 23.5 -> exists y, var_y oc = Fin y /\ 0 <= y <= 0.0731.
Proof.
  intros Hoc. unfold var_y. np_eval.
  eexists. split; [reflexivity|].
  pose proof PI2_3_2 as Hpi3. pose proof PI_4 as Hpi4.
  set (x := deg2rad_R (oc / 2)).
  assert (Hx : 0 < x <= 0.26112) by (unfold x, deg2rad_R; split; nra).
  assert (Hs : sin x < x) by (apply sin_lt_x; lra).
  assert (Hc : 1 - x ^ 2 / 2 <= cos x) by (apply cos_quadratic_lower; lra).
  assert (Hc' : 0.9659 <= cos x) by (simpl in Hc; nra).
  assert (Ht0 : 0 < tan x) by (apply tan_gt_0; lra).
  assert (Htc : tan x * cos x = sin x) by (unfold tan; field; lra).
  assert (Ht : tan x <= 0.27034) by nra.
  simpl. split; nra.
Qed.

Lemma ET_bounds_near_J2000 (gmls gmas E y : R) :
  0 <= y <= 0.0731 -> 0 <= E <= 0.0168 ->
  exists et, ET gmls gmas E y = Fin et /\ -28 < et < 28.
Proof.
  intros Hy HE. unfold ET. np_eval.
  eexists. split; [reflexivity|].
  pose proof (SIN_bound (2 * deg2rad_R gmls)) as Hs1.
  pose proof (SIN_bound (deg2rad_R gmas)) as Hs2.
  pose proof (COS_bound (2 * deg2rad_R gmls)) as Hc1.
  pose proof (SIN_bound (4 * deg2rad_R gmls)) as Hs3.
  pose proof (SIN_bound (2 * deg2rad_R gmas)) as Hs4.
  set (s1 := sin (2 * deg2rad_R gmls)) in *. set (s2 := sin (deg2rad_R gmas)) in *.
  set (c1 := cos (2 * deg2rad_R gmls)) in *. set (s3 := sin (4 * deg2rad_R gmls)) in *.
  set (s4 := sin (2 * deg2rad_R gmas)) in *.
  assert (Hy2 : 0 <= y ^ 2 <= 0.005344) by (simpl; nra).
  assert (HE2 : 0 <= E ^ 2 <= 0.000283) by (simpl; nra).
  assert (HEy : 0 <= E * y <= 0.001229) by nra.
  assert (Hsc : -1 <= s2 * c1 <= 1) by (split; nra).
  pose proof (bounded_product y s1 0.0731 Hs1 Hy) as T1.
  pose proof (bounded_product (2 * E) s2 0.0336 Hs2 ltac:(lra)) as T2.
  pose proof (bounded_product (4 * (E * y)) (s2 * c1) 0.004916 Hsc ltac:(lra)) as T3.
  pose proof (bounded_product (0.5 * y ^ 2) s3 0.002672 Hs3 ltac:(lra)) as T4.
  pose proof (bounded_product (1.25 * E ^ 2) s4 0.000354 Hs4 ltac:(lra)) as T5.
  set (S := y * s1 - 2 * E * s2 + 4 * E * y * s2 * c1 - 0.5 * y ^ 2 * s3
            - 1.25 * E ^ 2 * s4).
  assert (HS : -0.11465 <= S <= 0.11465) by (unfold S; lra).
  pose proof PI2_3_2 as Hpi.
  unfold rad2deg_R.
  assert (Hk : 0 < 180 / PI < 60).
  { split; [apply Rdiv_lt_0_compat; lra|].
    apply (Rmult_lt_reg_r PI); [lra|].
    replace (180 / PI * PI) with 180 by (field; lra). lra. }
  split; nra.
Qed.

(** X8. Between 1900 and 2100 the equation of time is a number below 28
    minutes in absolute value, so the true solar time is never further than
    28 minutes from the mean solar time of the place. *)
Theorem equation_of_time_below_28_minutes days hour minute tz lat lon :
  -1 <= century_of days hour minute tz <= 1 ->
  exists et, v_ET (body days hour minute tz lat lon) = Fin et /\ -28 < et < 28.
Proof.
  intros HT. cbn [body v_ET]. rewrite julian_century_eval.
  set (T := century_of days hour minute tz) in *.
  destruct (OC_bounds T HT) as (oc & -> & Hoc).
  destruct (EEO_bounds T HT) as (E & -> & HE).
  destruct (var_y_near_J2000 oc Hoc) as (y & -> & Hy).
  assert (Hl : exists gmls, GMLS T = Fin gmls) by (unfold GMLS; np_eval; eexists; reflexivity).
  assert (Hm : exists gmas, GMAS T = Fin gmas) by (unfold GMAS; np_eval; eexists; reflexivity).
  destruct Hl as [gmls ->]. destruct Hm as [gmas ->].
  apply ET_bounds_near_J2000; lra.
Qed.

Lemma equation_of_time_below_28_minutes_witness :
  exists et, v_ET (body 44001 6 0 0 40 0) = Fin et /\ -28 < et < 28.
Proof.
  exact (equation_of_time_below_28_minutes 44001 6 0 0 40 0 century_2020_06_20_6h).
Defined.

(** X9. Between 1900 and 2100 the divisor of the radius vector (line 61)
    is never zero, and the distance of the Sun lies between 0.983 and 1.017
    astronomical units. *)
Theorem radius_vector_near_one days hour minute tz lat lon :
  -1 <= century_of days hour minute tz <= 1 ->
  exists rv, v_SRV (body days hour minute tz lat lon) = Fin rv /\ 0.983 < rv < 1.017.
Proof.
  intros HT. cbn [body v_SRV]. rewrite julian_century_eval.
  set (T := century_of days hour minute tz) in *.
  destruct (EEO_bounds T HT) as (E & -> & HE).
  assert (Hsta : exists sta, STA (GMAS T) (SEC T (GMAS T)) = Fin sta).
  { unfold STA, SEC, GMAS. np_eval. eexists. reflexivity. }
  destruct Hsta as [sta ->].
  unfold SRV. np_step.
  pose proof (COS_bound (deg2rad_R sta)) as Hc.
  set (k := cos (deg2rad_R sta)) in *.
  assert (Hd : 0.9832 <= 1 + E * k <= 1.0168) by (split; nra).
  rewrite div_Fin by lra.
  eexists. split; [reflexivity|].
  assert (Hn : 0.9997 < 1.000001018 * (1 - E ^ 2) < 0.99973) by (simpl; split; nra).
  set (n := 1.000001018 * (1 - E ^ 2)) in *. set (d := 1 + E * k) in *.
  assert (Hq : n / d * d = n) by (field; lra).
  split.
  - apply (Rmult_lt_reg_r d); [lra|]. rewrite Hq. nra.
  - apply (Rmult_lt_reg_r d); [lra|]. rewrite Hq. nra.
Qed.

Lemma radius_vector_near_one_witness :
  exists rv, v_SRV (body 44001 6 0 0 40 0) = Fin rv /\ 0.983 < rv < 1.017.
Proof.
  exact (radius_vector_near_one 44001 6 0 0 40 0 century_2020_06_20_6h).
Defined.

(** ** The size of the refraction (lines 97 to 108) *)

Lemma AAR_magnitude (e : R) :
  -90 < e -> exists a, AAR e = Fin a /\ -0.33 <= a <= 0.61.
Proof.
  intros Hnadir.
  destruct (Rlt_dec 85 e) as [H85|H85].
  { exists 0. split; [apply AAR_above_85; assumption | lra]. }
  destruct (Rlt_dec 5 e) as [H5|H5].
  { destruct (AAR_5_to_85_bounds e ltac:(lra)) as (a & Ha & Hb).
    exists a. split; [assumption | lra]. }
  destruct (Rlt_dec (-0.575) e) as [Hh|Hh].
  { rewrite AAR_below_5 by lra. eexists. split; [reflexivity|].
    set (a1 := -12.79 + e * 0.711).
    assert (H1 : -13.2 <= a1 <= -9.2) by (unfold a1; lra).
    set (a2 := 103.4 + e * a1).
    assert (H2 : 37 <= a2 <= 111) by (unfold a2; nra).
    set (a3 := -518.2 + e * a2).
    assert (H3 : -583 <= a3 <= 37) by (unfold a3; nra).
    assert (H4 : -1180 <= 1735 + e * a3 <= 2071) by nra.
    lra. }
  destruct (AAR_below_horizon_bounds e ltac:(lra)) as (a & Ha & Hb).
  exists a. split; [assumption | lra].
Qed.

(** X10. A returned elevation that is a number differs from the raw
    elevation by the refraction only, which is never below -0.33 nor above
    0.61 degrees. *)
Theorem refraction_is_small year month day hour minute tz lat lon (el : R) az :
  solar_angle year month day hour minute tz lat lon = Ok (Fin el, az) ->
  exists days e,
    Datetime.days_since_reference year month day = Some days /\
    v_SEA (body days hour minute tz lat lon) = Fin e /\
    -0.33 <= el - e <= 0.61.
Proof.
  intros Hcall.
  destruct (solar_angle_Ok_inv _ _ _ _ _ _ _ _ _ _ Hcall) as (days & Hdays & Hel & _).
  destruct (SEA_number days hour minute tz lat lon) as (z & e & _ & _ & He & _ & Hrange).
  exists days, e. split; [assumption|]. split; [assumption|].
  change (v_SEC' (body days hour minute tz lat lon))
    with (SEC' (v_SEA (body days hour minute tz lat lon))
               (AAR (v_SEA (body days hour minute tz lat lon)))) in Hel.
  rewrite He in Hel.
  destruct (Req_dec e (-90)) as [->|Hne].
  { rewrite AAR_nadir in Hel. discriminate. }
  destruct (AAR_magnitude e ltac:(lra)) as (a & Ha & Hb).
  rewrite Ha in Hel. injection Hel as ->. lra.
Qed.

Lemma refraction_is_small_witness :
  exists el az e,
    solar_angle 2020 6 20 6 0 0 40 0 = Ok (Fin el, az) /\
    v_SEA (body 44001 6 0 0 40 0) = Fin e /\ -0.33 <= el - e <= 0.61.
Proof.
  destruct call_2020_06_20_morning as (e0 & el & az & _ & _ & Hcall).
  destruct (refraction_is_small 2020 6 20 6 0 0 40 0 el (Fin az) Hcall)
    as (days & e & Hdays & He & Hb).
  rewrite days_2020_06_20 in Hdays. injection Hdays as <-.
  exists el, (Fin az), e. repeat split; try assumption; lra.
Defined.

(** ** The poles (lines 91 to 95) *)

Lemma zenith_at_south_pole (sd ha : R) :
  -90 <= sd <= 90 -> zenith_of (-90) sd ha = 90 + sd.
Proof.
  intros Hsd. unfold zenith_of.
  assert (HX : sin (deg2rad_R (-90)) * sin (deg2rad_R sd)
               + cos (deg2rad_R (-90)) * cos (deg2rad_R sd) * cos (deg2rad_R ha)
               = - sin (deg2rad_R sd)).
  { replace (deg2rad_R (-90)) with (- deg2rad_R 90) by (unfold deg2rad_R; ring).
    rewrite sin_neg, cos_neg. destruct sin_cos_deg_90 as [-> ->]. ring. }
  rewrite HX.
  pose proof PI_RGT_0 as Hpi.
  pose proof (deg2rad_R_quadrants sd Hsd) as Hq.
  rewrite acos_opp, acos_asin by apply SIN_bound.
  rewrite asin_sin by exact Hq.
  unfold rad2deg_R, deg2rad_R. field. lra.
Qed.

(** X11. At the poles the raw elevation does not depend on the time of
    day: it is the declination at the North Pole and its opposite at the
    South Pole, for every input. *)
Theorem elevation_at_the_poles days hour minute tz lon :
  exists sd,
    v_SD (body days hour minute tz 90 lon) = Fin sd /\
    v_SEA (body days hour minute tz 90 lon) = Fin sd /\
    v_SD (body days hour minute tz (-90) lon) = Fin sd /\
    v_SEA (body days hour minute tz (-90) lon) = Fin (- sd).
Proof.
  destruct (SD_number days hour minute tz 90 lon) as (sd & Hsd & Hsdr).
  assert (Hsd' : v_SD (body days hour minute tz (-90) lon) = Fin sd) by exact Hsd.
  destruct (HA_number days hour minute tz 90 lon) as (t & _ & _ & Hha).
  assert (Hha' : v_HA (body days hour minute tz (-90) lon) = Fin (t / 4 - 180))
    by exact Hha.
  exists sd. split; [assumption|]. split; [|split; [assumption|]].
  - change (v_SEA (body days hour minute tz 90 lon))
      with (SEA (SZA 90 (v_SD (body days hour minute tz 90 lon))
                     (v_HA (body days hour minute tz 90 lon)))).
    rewrite Hsd, Hha, SZA_eval. fold (zenith_of 90 sd (t / 4 - 180)).
    rewrite zenith_at_pole by assumption.
    unfold SEA. np_eval. f_equal. ring.
  - change (v_SEA (body days hour minute tz (-90) lon))
      with (SEA (SZA (-90) (v_SD (body days hour minute tz (-90) lon))
                     (v_HA (body days hour minute tz (-90) lon)))).
    rewrite Hsd', Hha', SZA_eval. fold (zenith_of (-90) sd (t / 4 - 180)).
    rewrite zenith_at_south_pole by assumption.
    unfold SEA. np_eval. f_equal. ring.
Qed.

(** ** The epoch (lines 49 to 51) *)

(** X12. For a valid date the Julian century counts from 2000-01-01,
    12:00 UTC: it is the number of days since then, with the clock and the
    zone, divided by 36525.  The reference date 1899-12-31, the offset
    2415018.5 and the correction +1 of line 50 add up to the epoch
    J2000. *)
Theorem julian_century_counts_from_J2000 year month day hour minute tz lat lon days :
  Datetime.days_since_reference year month day = Some days ->
  v_julian_century (body days hour minute tz lat lon) =
  Fin ((IZR (Datetime.ymd2ord year month day - Datetime.ymd2ord 2000 1 1)
        + (IZR (hour * 60 + minute) - 720) / 1440 - tz / 24) / 36525).
Proof.
  unfold Datetime.days_since_reference.
  destruct (Datetime.check_date_fields year month day); [|discriminate].
  intros [= <-]. cbn [body v_julian_century].
  rewrite julian_century_eval. f_equal. unfold century_of.
  rewrite !minus_IZR.
  replace (IZR (Datetime.ymd2ord 1899 12 31)) with 693595 by (vm_compute; lra).
  replace (IZR (Datetime.ymd2ord 2000 1 1)) with 730120 by (vm_compute; lra).
  replace (IZR (24 * 60)) with 1440 by (simpl; lra). lra.
Qed.

Lemma julian_century_counts_from_J2000_witness :
  v_julian_century (body 36525 12 0 0 0 0) = Fin 0.
Proof.
  rewrite (julian_century_counts_from_J2000 2000 1 1 12 0 0 0 0 36525 eq_refl).
  f_equal. simpl. field.
Defined.

(** ** Right ascension (lines 65 to 67) *)

Lemma atan_neg_le (v : R) : v <= 0 -> atan v <= 0.
Proof.
  intros Hv. destruct (Req_dec v 0) as [->|Hne]; [rewrite atan_0; lra|].
  left. rewrite <- atan_0. apply atan_increasing. lra.
Qed.

Lemma atan_pos_lt (v : R) : 0 < v -> 0 < atan v.
Proof. intros Hv. rewrite <- atan_0. now apply atan_increasing. Qed.

Lemma arctan2_R_range (y x : R) : - PI < arctan2_R y x <= PI.
Proof.
  unfold arctan2_R. pose proof PI_RGT_0 as Hpi.
  pose proof (atan_bound (y / x)) as Hb.
  destruct (Rlt_dec 0 x) as [Hx|Hx]; [lra|].
  destruct (Rlt_dec x 0) as [Hx'|Hx'].
  - assert (Hix : / x < 0) by (apply Rinv_lt_0_compat; assumption).
    destruct (Rle_dec 0 y) as [Hy|Hy].
    + assert (Hq : y / x <= 0) by (unfold Rdiv; nra).
      pose proof (atan_neg_le _ Hq). lra.
    + assert (Hq : 0 < y / x) by (unfold Rdiv; nra).
      pose proof (atan_pos_lt _ Hq). lra.
  - destruct (Rlt_dec 0 y); [lra|]. destruct (Rlt_dec y 0); lra.
Qed.

(** X13. The right ascension is a number for every input, in the range
    (-180, 180] of the two-argument arctangent. *)
Theorem right_ascension_range days hour minute tz lat lon :
  exists ra, v_SRA (body days hour minute tz lat lon) = Fin ra /\ -180 < ra <= 180.
Proof.
  destruct (OC_SAL_number days hour minute tz lat lon) as (oc & sal & Hoc & Hsal).
  change (v_SRA (body days hour minute tz lat lon))
    with (SRA (v_OC (body days hour minute tz lat lon))
              (v_SAL (body days hour minute tz lat lon))).
  rewrite Hoc, Hsal. unfold SRA, Np.arctan2. np_step.
  eexists. split; [reflexivity|].
  pose proof (arctan2_R_range (cos (deg2rad_R oc) * sin (deg2rad_R sal))
                (cos (deg2rad_R sal))) as Hr.
  pose proof PI_RGT_0 as Hpi. unfold rad2deg_R.
  set (a := arctan2_R _ _) in *.
  assert (Hk : a * (180 / PI) * (PI / 180) = a) by (field; lra).
  split.
  - apply (Rmult_lt_reg_r (PI / 180)); [lra|]. rewrite Hk. lra.
  - apply (Rmult_le_reg_r (PI / 180)); [lra|]. rewrite Hk. lra.
Qed.

(** ** The length of the day at the equator (lines 76 to 83) *)

Lemma sunrise_cosine_equator (sd : R) :
  -23.5 < sd < 23.5 -> -1 < sunrise_cosine 0 sd < 0.
Proof.
  intros Hsd. unfold sunrise_cosine.
  pose proof PI_RGT_0 as Hpi. pose proof PI2_3_2 as Hpi3. pose proof PI_4 as Hpi4.
  replace (deg2rad_R 0) with 0 by (unfold deg2rad_R; ring).
  rewrite sin_0, cos_0.
  (* cos(90.833 deg) = - sin(0.833 deg) *)
  assert (Hz : cos (deg2rad_R 90.833) = - sin (deg2rad_R 0.833)).
  { replace (deg2rad_R 90.833) with (PI / 2 + deg2rad_R 0.833)
      by (unfold deg2rad_R; lra).
    rewrite (sin_cos (deg2rad_R 0.833)). ring. }
  assert (Hd : 0 < deg2rad_R 0.833 <= 0.0186) by (unfold deg2rad_R; split; nra).
  assert (Hs1 : 0 < sin (deg2rad_R 0.833)) by (apply sin_gt_0; lra).
  assert (Hs2 : sin (deg2rad_R 0.833) < deg2rad_R 0.833) by (apply sin_lt_x; lra).
  assert (Hx : -0.5223 <= deg2rad_R sd <= 0.5223) by (unfold deg2rad_R; split; nra).
  pose proof (cos_quadratic_lower (deg2rad_R sd) ltac:(lra)) as Hc.
  assert (Hc' : 0.86 <= cos (deg2rad_R sd)) by (simpl in Hc; nra).
  rewrite Hz.
  set (s := sin (deg2rad_R 0.833)) in *. set (c := cos (deg2rad_R sd)) in *.
  replace ((- s - 0 * sin (deg2rad_R sd)) / (1 * c)) with (- (s / c)) by (field; lra).
  assert (Hq : 0 < s / c < 1).
  { split; [apply Rdiv_lt_0_compat; lra|].
    apply (Rmult_lt_reg_r c); [lra|].
    replace (s / c * c) with s by (field; lra). lra. }
  lra.
Qed.

(** X14. On the equator, between 1900 and 2100, the Sun rises and sets
    every day: the half-span [HAS] is a number above 90 degrees and the
    sunlight duration is a number above 720 minutes (12 hours), at most
    1440. *)
Theorem equator_day_longer_than_12_hours days hour minute tz lon :
  -1 <= century_of days hour minute tz <= 1 ->
  let l := body days hour minute tz 0 lon in
  exists h d,
    v_HAS l = Fin h /\ 90 < h <= 180 /\ v_SlD l = Fin d /\ 720 < d <= 1440.
Proof.
  intros HT l.
  destruct (declination_bounds days hour minute tz 0 lon HT)
    as (oc & sd & _ & Hoc & Hsd & Hsdr).
  fold l in Hsd.
  pose proof (sunrise_cosine_equator sd ltac:(lra)) as Hq.
  destruct (HAS_cases 0 sd ltac:(lra) ltac:(lra)) as [Hin _].
  assert (Hh : v_HAS l = Fin (rad2deg_R (acos (sunrise_cosine 0 sd)))).
  { change (v_HAS l) with (HAS 0 (v_SD l)). rewrite Hsd.
    apply Hin. unfold in_unit. lra. }
  set (q := sunrise_cosine 0 sd) in *.
  pose proof (acos_bound q) as Hb. pose proof PI_RGT_0 as Hpi.
  assert (Hhalf : PI / 2 < acos q).
  { destruct (Rlt_dec (PI / 2) (acos q)) as [H|H]; [assumption|]. exfalso.
    assert (Hc : 0 <= cos (acos q)) by (apply cos_ge_0; lra).
    rewrite cos_acos in Hc by lra. lra. }
  assert (Hr : 90 < rad2deg_R (acos q) <= 180).
  { unfold rad2deg_R.
    assert (Hk : acos q * (180 / PI) * (PI / 180) = acos q) by (field; lra).
    split.
    - apply (Rmult_lt_reg_r (PI / 180)); [lra|]. rewrite Hk. lra.
    - apply (Rmult_le_reg_r (PI / 180)); [lra|]. rewrite Hk. lra. }
  exists (rad2deg_R (acos q)), (8 * rad2deg_R (acos q)).
  split; [assumption|]. split; [assumption|]. split.
  - change (v_SlD l) with (SlD (v_HAS l)). rewrite Hh. unfold SlD. np_step. reflexivity.
  - lra.
Qed.

Lemma equator_day_longer_than_12_hours_witness :
  exists h d,
    v_HAS (body 44001 6 0 0 0 0) = Fin h /\ 90 < h <= 180 /\
    v_SlD (body 44001 6 0 0 0 0) = Fin d /\ 720 < d <= 1440.
Proof.
  exact (equator_day_longer_than_12_hours 44001 6 0 0 0 century_2020_06_20_6h).
Defined.

(** ** Culmination (lines 91 to 94) *)




